(** * wut: terminal-session reconstruction (src/wut/utils.py)

    A shallow embedding of the helpers of [wut/utils.py] and the
    properties of its segmentation / truncation pipeline.

    Conventions of the embedding.
    - A Python [str] is a [list ascii]; a character is read as the code
      point 0..255 it denotes, so the built-in string methods below are
      the CPython ones restricted to that range.
    - A Python [int] is a [Z]; a token id is a [nat].
    - A raised exception is a value of [exn]; fallible code lives in the
      [res] monad.
    - The tokenizer ([tiktoken]) is a third-party object: it is a
      parameter of the development ([Tokenizer]), and the two facts used
      about it are named hypotheses. *)

From Stdlib Require Import ZArith List Ascii String Lia Bool.
From stdpp Require Import base strings gmap.
Import ListNotations.

Local Open Scope list_scope.
Local Open Scope Z_scope.

Abbreviation str := (list ascii).

(** String literals of the source are written [py "..."]. *)
Definition py (s : string) : str := list_ascii_of_string s.

(* ================================================================== *)
(** ** Python built-ins used by the source *)
(* ================================================================== *)

Module Py.

Definition code (c : ascii) : N := N_of_ascii c.

Definition LF : ascii := ascii_of_N 10.
Definition CR : ascii := ascii_of_N 13.

(** [str.isspace] on one character: TAB..CR, FS..US, SPACE, NEL, NBSP. *)
Definition is_space (c : ascii) : bool :=
  let n := code c in
  ((9 <=? n) && (n <=? 13) || (28 <=? n) && (n <=? 32)
   || (n =? 133) || (n =? 160))%N.

(** Line boundaries of [str.splitlines]: LF, VT, FF, CR, FS, GS, RS, NEL. *)
Definition is_linebreak (c : ascii) : bool :=
  let n := code c in
  ((10 <=? n) && (n <=? 13) || (28 <=? n) && (n <=? 30) || (n =? 133))%N.

(** [str.lower] on one character: A..Z and the Latin-1 capitals. *)
Definition lower_char (c : ascii) : ascii :=
  let n := code c in
  if ((65 <=? n) && (n <=? 90)
      || (192 <=? n) && (n <=? 222) && negb (n =? 215))%N
  then ascii_of_N (n + 32) else c.

Definition lower (s : str) : str := map lower_char s.

Definition ascii_eqb (a b : ascii) : bool := (code a =? code b)%N.

Fixpoint startswith (s p : str) : bool :=
  match p, s with
  | [], _ => true
  | _ :: _, [] => false
  | a :: p', b :: s' => ascii_eqb a b && startswith s' p'
  end.

(** [needle in hay]. *)
Fixpoint contains (needle hay : str) : bool :=
  startswith hay needle
  || match hay with
     | [] => false
     | _ :: hay' => contains needle hay'
     end.

(** [s.find(sep)] as the pair (text before, text after) of the first
    occurrence. *)
Fixpoint partition (sep s : str) : option (str * str) :=
  if startswith s sep then Some ([], skipn (length sep) s)
  else match s with
       | [] => None
       | c :: s' =>
           match partition sep s' with
           | Some (a, b) => Some (c :: a, b)
           | None => None
           end
       end.

Fixpoint drop_while {A} (f : A -> bool) (l : list A) : list A :=
  match l with
  | [] => []
  | x :: l' => if f x then drop_while f l' else l
  end.

Definition lstrip (s : str) : str := drop_while is_space s.
Definition rstrip (s : str) : str := rev (drop_while is_space (rev s)).
Definition strip (s : str) : str := rstrip (lstrip s).

(** [sep.join(ls)]. *)
Fixpoint join (sep : str) (ls : list str) : str :=
  match ls with
  | [] => []
  | [l] => l
  | l :: ls' => l ++ sep ++ join sep ls'
  end.

(** [s.splitlines()]: a line ends at a line boundary; CR LF is one
    boundary; the text after the last boundary is a line only when it
    is not empty. *)
Fixpoint splitlines (s : str) : list str :=
  match s with
  | [] => []
  | c :: rest =>
      if is_linebreak c then
        [] :: match rest with
              | c' :: rest' =>
                  if ascii_eqb c CR && ascii_eqb c' LF
                  then splitlines rest' else splitlines rest
              | [] => splitlines rest
              end
      else
        match splitlines rest with
        | [] => [[c]]
        | l :: ls => (c :: l) :: ls
        end
  end.

(** Slice indices, as [PySlice_AdjustIndices] clamps them. *)
Definition adjust (len : nat) (i : Z) : nat :=
  Z.to_nat (if i <? 0 then Z.max 0 (Z.of_nat len + i)
            else Z.min i (Z.of_nat len)).

(** [l[:stop]] and [l[start:]]. *)
Definition slice_to {A} (l : list A) (stop : Z) : list A :=
  firstn (adjust (length l) stop) l.
Definition slice_from {A} (l : list A) (start : Z) : list A :=
  skipn (adjust (length l) start) l.

End Py.

(** The newline of the source's ["\n"] literals. *)
Definition nl : str := [Py.LF].

(* ================================================================== *)
(** ** Exceptions *)
(* ================================================================== *)

Inductive exn : Type :=
| IndexError
| ValueError
| AttributeError
| FileNotFoundError.

Inductive res (A : Type) : Type :=
| Ok (a : A)
| Raise (e : exn).
Arguments Ok {A} a.
Arguments Raise {A} e.

Definition bind {A B} (m : res A) (k : A -> res B) : res B :=
  match m with
  | Ok a => k a
  | Raise e => Raise e
  end.

Notation "x <- m ;; k" := (bind m (fun x => k))
  (at level 100, m at next level, right associativity).

(** A [for] loop whose body may raise. *)
Fixpoint for_each {A S} (body : S -> A -> res S) (xs : list A) (s : S)
  : res S :=
  match xs with
  | [] => Ok s
  | x :: xs' => s' <- body s x ;; for_each body xs' s'
  end.

(** [l[i]] for [i >= 0]. *)
Definition subscript {A} (l : list A) (i : nat) : res A :=
  match nth_error l i with
  | Some a => Ok a
  | None => Raise IndexError
  end.

(** [l[-1]]. *)
Definition subscript_last {A} (l : list A) : res A :=
  match rev l with
  | a :: _ => Ok a
  | [] => Raise IndexError
  end.

(** [s.split(sep, 1)]. *)
Definition split1 (s sep : str) : res (list str) :=
  match sep with
  | [] => Raise ValueError
  | _ => match Py.partition sep s with
         | Some (a, b) => Ok [a; b]
         | None => Ok [s]
         end
  end.

(* ================================================================== *)
(** ** Module constants and records *)
(* ================================================================== *)

Definition SHELLS : list str :=
  [py "bash"; py "fish"; py "zsh"; py "csh"; py "tcsh"; py "powershell";
   py "pwsh"].

Record Shell := mkShell {
  path : option str;
  name : option str;
  prompt : option str
}.

Record Command := mkCommand {
  text : str;
  output : str
}.

(* ================================================================== *)
(** ** Token meter *)
(* ================================================================== *)

(** The [tiktoken] encoding object: [tokenizer.encode(text,
    disallowed_special=())] and [tokenizer.decode(tokens)]. *)
Record Tokenizer := mkTokenizer {
  encode : str -> list nat;
  decode : list nat -> str
}.

(** The two facts about the encoding that the properties below rely on. *)
Definition decodes_empty (T : Tokenizer) : Prop := decode T [] = [].
Definition lossless (T : Tokenizer) : Prop :=
  forall t : str, decode T (encode T t) = t.

(** A tokenizer with one token per character, used to run the
    definitions on concrete inputs. *)
Definition char_tokenizer : Tokenizer :=
  {| encode := map nat_of_ascii; decode := map ascii_of_nat |}.

Section TokenMeter.

Context (tokenizer : Tokenizer).

Definition count_tokens (text : str) : Z :=
  Z.of_nat (length (encode tokenizer text)).

Definition truncate_tokens (text : str) (max_tokens : Z) (reverse : bool)
  : str :=
  let tokens := encode tokenizer text in
  let tokens := if reverse then Py.slice_from tokens (- max_tokens)
                else Py.slice_to tokens max_tokens in
  decode tokenizer tokens.

End TokenMeter.

(* ================================================================== *)
(** ** Shell-name normalisation *)
(* ================================================================== *)

Module OsPath.

(** [s.rfind(c)], counting from index [i]; [-1] when absent. *)
Fixpoint rfind_from (c : ascii) (s : str) (i : Z) : Z :=
  match s with
  | [] => -1
  | x :: s' =>
      let r := rfind_from c s' (i + 1) in
      if 0 <=? r then r else if Py.ascii_eqb x c then i else -1
  end.
Definition rfind (c : ascii) (s : str) : Z := rfind_from c s 0.

Definition sep : ascii := "/"%char.
Definition extsep : ascii := "."%char.

(** [posixpath.splitext]: the extension starts at the last dot of the
    last path component, unless that component has only leading dots
    before it. *)
Definition splitext (p : str) : str * str :=
  let sepIndex := rfind sep p in
  let dotIndex := rfind extsep p in
  if (sepIndex <? dotIndex)
     && existsb (fun ch => negb (Py.ascii_eqb ch extsep))
          (firstn (Z.to_nat (dotIndex - (sepIndex + 1)))
             (skipn (Z.to_nat (sepIndex + 1)) p))
  then (firstn (Z.to_nat dotIndex) p, skipn (Z.to_nat dotIndex) p)
  else (p, []).

End OsPath.

Definition get_shell_name (shell_path : option str) : option str :=
  match shell_path with
  | None | Some [] => None
  | Some shell_path =>
      if bool_decide (Py.lower (snd (OsPath.splitext shell_path)) ∈ SHELLS)
      then Some (Py.lower (snd (OsPath.splitext shell_path)))
      else if bool_decide (Py.lower (fst (OsPath.splitext shell_path)) ∈ SHELLS)
      then Some (Py.lower (fst (OsPath.splitext shell_path)))
      else if bool_decide (Py.lower shell_path ∈ SHELLS)
      then Some (Py.lower shell_path)
      else None
  end.

(* ================================================================== *)
(** ** Session segmenter *)
(* ================================================================== *)

(** The loop state of [get_commands]: [commands] (newest first) and
    [buffer]. *)
Definition seg_state : Type := list Command * list str.

(** One iteration of the loop of [get_commands]. *)
Definition get_commands_body (shell : Shell) (st : seg_state) (line : str)
  : res seg_state :=
  let '(commands, buffer) := st in
  if bool_decide (Py.strip line = []) then Ok (commands, buffer)
  else
    match prompt shell with
    | None => Raise AttributeError
    | Some shell_prompt =>
        if Py.contains (Py.lower shell_prompt) (Py.lower line) then
          parts <- split1 line shell_prompt ;;
          rest <- subscript parts 1 ;;
          let command_text := Py.strip rest in
          let command :=
            mkCommand command_text (Py.strip (Py.join nl (rev buffer))) in
          Ok (commands ++ [command], [])
        else Ok (commands, buffer ++ [line])
    end.

(** The list [commands] when the loop ends, before the final slice. *)
Definition scan_commands (lines : list str) (shell : Shell)
  : res (list Command) :=
  st <- for_each (get_commands_body shell) (rev lines) ([], []) ;;
  Ok (fst st).

Definition get_commands (pane_output : str) (shell : Shell)
  : res (list Command) :=
  commands <- scan_commands (Py.splitlines pane_output) shell ;;
  Ok (Py.slice_from commands 1).

(* ================================================================== *)
(** ** Budgeted truncator *)
(* ================================================================== *)

Section Truncator.

Context (tokenizer : Tokenizer).

(** The inner loop of [truncate_commands]: [output] grows until a line
    breaks the budget. *)
Fixpoint truncate_output_loop (lines : list str) (num_tokens max_tokens : Z)
  (output : list str) : list str :=
  match lines with
  | [] => output
  | line :: lines' =>
      let line_tokens := count_tokens tokenizer line in
      if max_tokens <? line_tokens + num_tokens then output
      else truncate_output_loop lines' num_tokens max_tokens
             (output ++ [line])
  end.

(** The outer loop; [num_tokens] is threaded as the source has it
    (assigned once, never updated). *)
Fixpoint truncate_commands_loop (commands : list Command)
  (num_tokens max_tokens : Z) (truncated_commands : list Command)
  : list Command :=
  match commands with
  | [] => truncated_commands
  | command :: commands' =>
      let command_tokens := count_tokens tokenizer (text command) in
      if max_tokens <? command_tokens + num_tokens then truncated_commands
      else
        let output :=
          truncate_output_loop (rev (Py.splitlines (output command)))
            num_tokens max_tokens [] in
        let output := Py.join nl (rev output) in
        let command := mkCommand (text command) output in
        truncate_commands_loop commands' num_tokens max_tokens
          (truncated_commands ++ [command])
  end.

Definition truncate_commands (commands : list Command) (max_tokens : Z)
  : list Command :=
  let num_tokens := 0 in
  truncate_commands_loop commands num_tokens max_tokens [].

(** The loop state of [truncate_pane_output]: [hit_non_empty_line] and
    [lines]. *)
Definition pane_body (st : bool * list str) (line : str) : bool * list str :=
  let '(hit_non_empty_line, lines) := st in
  let hit_non_empty_line :=
    if negb (bool_decide (line = []))
       && negb (bool_decide (Py.strip line = []))
    then true else hit_non_empty_line in
  if hit_non_empty_line then (hit_non_empty_line, lines ++ [line])
  else (hit_non_empty_line, lines).

(** The text handed to [truncate_tokens] by [truncate_pane_output]. *)
Definition pane_text (output : str) : str :=
  let lines :=
    snd (fold_left pane_body (rev (Py.splitlines output)) (false, [])) in
  let lines := Py.slice_from lines 1 in
  Py.join nl (rev lines).

Definition truncate_pane_output (output : str) (max_tokens : Z) : str :=
  let output := pane_text output in
  let output := truncate_tokens tokenizer output max_tokens true in
  Py.strip output.

End Truncator.

(* ================================================================== *)
(** ** Context assembler *)
(* ================================================================== *)

Definition command_to_string (command : Command) (shell_prompt : option str)
  : str :=
  let shell_prompt :=
    match shell_prompt with
    | None | Some [] => py "$"
    | Some p => p
    end in
  let command_str := shell_prompt ++ py " " ++ text command in
  command_str
  ++ (if bool_decide (Py.strip (output command) = []) then []
      else nl ++ output command).

(* ================================================================== *)
(** ** Pane capturer *)
(* ================================================================== *)

(** What running an external command does: it is not found, or it runs,
    exits with [returncode] and emits [written]. *)
Inductive proc : Type :=
| Missing
| Exited (returncode : Z) (written : str).

(** The part of the machine [get_pane_output] touches: the environment,
    the files (path to content), the name [NamedTemporaryFile] picks, and
    the behaviour of the two multiplexer commands ([written] is the
    standard output of [tmux capture-pane], and the text [screen
    hardcopy] puts in the file it is given). *)
Record World := mkWorld {
  environ : gmap str str;
  files : gmap str str;
  temp_name : str;
  tmux_capture : proc;
  screen_hardcopy : proc
}.

(** [NamedTemporaryFile] returns a non-empty path that did not exist. *)
Definition temp_fresh (w : World) : Prop :=
  temp_name w <> [] /\ files w !! temp_name w = None.

Definition with_files (w : World) (fs : gmap str str) : World :=
  mkWorld (environ w) fs (temp_name w) (tmux_capture w) (screen_hardcopy w).

Definition write_file (w : World) (f content : str) : World :=
  with_files w (<[f := content]> (files w)).
Definition read_file (w : World) (f : str) : str :=
  default [] (files w !! f).
Definition remove_file (w : World) (f : str) : World :=
  with_files w (delete f (files w)).

(** [os.getenv(k)] in a condition: set and not empty. *)
Definition getenv_true (w : World) (k : str) : bool :=
  match environ w !! k with
  | Some (_ :: _) => true
  | _ => false
  end.

(** The code after the [try] statement: remove the file, return. *)
Definition cleanup_and_return (w : World) (output_file : option str)
  (output : str) : res str * World :=
  match output_file with
  | Some (c :: f) => (Ok output, remove_file w (c :: f))
  | _ => (Ok output, w)
  end.

Definition get_pane_output (w : World) : res str * World :=
  let output := [] in
  (* with tempfile.NamedTemporaryFile(delete=False) as temp_file *)
  let w := write_file w (temp_name w) [] in
  let output_file := temp_name w in
  if getenv_true w (py "TMUX") then
    (* open(output_file, "w"); run(cmd, stdout=f, text=True) *)
    let w := write_file w output_file [] in
    match tmux_capture w with
    | Missing => (Raise FileNotFoundError, w)
    | Exited _ written =>
        let w := write_file w output_file written in
        let output := read_file w output_file in
        cleanup_and_return w (Some output_file) output
    end
  else if getenv_true w (py "STY") then
    (* check_output(cmd, text=True) *)
    match screen_hardcopy w with
    | Missing => (Raise FileNotFoundError, w)
    | Exited returncode written =>
        let w := write_file w output_file written in
        if returncode =? 0 then
          let output := read_file w output_file in
          cleanup_and_return w (Some output_file) output
        else
          (* except CalledProcessError: pass *)
          cleanup_and_return w (Some output_file) output
    end
  else
    (* return "" from inside the try statement *)
    (Ok [], w).

(* ================================================================== *)
(** ** Terminal context *)
(* ================================================================== *)

Section Context_.

Context (tokenizer : Tokenizer).

(** [get_terminal_context] from the captured pane text on. *)
Definition terminal_context (pane_output : str) (shell : Shell)
  (max_tokens max_commands : Z) : res str :=
  match pane_output with
  | [] =>
      Ok (py "<terminal_history>No terminal output found.</terminal_history>")
  | _ =>
      match prompt shell with
      | None | Some [] =>
          let pane_output :=
            truncate_pane_output tokenizer pane_output max_tokens in
          Ok (py "<terminal_history>" ++ nl ++ pane_output ++ nl
              ++ py "</terminal_history>")
      | Some _ =>
          commands <- get_commands pane_output shell ;;
          let commands :=
            truncate_commands tokenizer
              (Py.slice_to commands max_commands) max_tokens in
          let commands := rev commands in
          let previous_commands := Py.slice_to commands (-1) in
          last_command <- subscript_last commands ;;
          let context := py "<terminal_history>" ++ nl in
          let context := context ++ py "<previous_commands>" ++ nl in
          let context :=
            context
            ++ Py.join nl
                 (map (fun c => command_to_string c (prompt shell))
                    previous_commands) in
          let context := context ++ nl ++ py "</previous_commands>" ++ nl in
          let context := context ++ nl ++ py "<last_command>" ++ nl in
          let context :=
            context ++ command_to_string last_command (prompt shell) in
          let context := context ++ nl ++ py "</last_command>" in
          let context := context ++ nl ++ py "</terminal_history>" in
          Ok context
      end
  end.

Definition get_terminal_context (w : World) (shell : Shell)
  (max_tokens max_commands : Z) : res str * World :=
  let '(pane_output, w) := get_pane_output w in
  (pane_output <- pane_output ;;
   terminal_context pane_output shell max_tokens max_commands, w).

End Context_.

(* ================================================================== *)
(** ** Vocabulary of the properties, and sample data *)
(* ================================================================== *)

Definition P_shell : Shell := mkShell None None (Some (py "P>")).
Definition myprompt_shell : Shell := mkShell None None (Some (py "myprompt>")).

Definition bare_world : World :=
  mkWorld ∅ ∅ (py "/tmp/tmpk3x9") Missing Missing.

Fixpoint take_while {A} (f : A -> bool) (l : list A) : list A :=
  match l with
  | [] => []
  | x :: l' => if f x then x :: take_while f l' else []
  end.

Section TruncatorDefs.

Context (T : Tokenizer).

(** A text is within the budget when its own token count does not
    exceed it. *)
Definition within (max_tokens : Z) (s : str) : bool :=
  count_tokens T s <=? max_tokens.

(** The lines of an output that survive: the longest run of lines, from
    the bottom up, that are each within the budget. *)
Definition kept_lines (max_tokens : Z) (out : str) : list str :=
  rev (take_while (within max_tokens) (rev (Py.splitlines out))).

(** A command with its output rebuilt from the surviving lines. *)
Definition rebuilt (max_tokens : Z) (c : Command) : Command :=
  mkCommand (text c) (Py.join nl (kept_lines max_tokens (output c))).

End TruncatorDefs.

Definition ls_command : Command :=
  mkCommand (py "ls") (py "a" ++ nl ++ py "bbbbbbbb" ++ nl ++ py "cc").
Definition echo_command : Command := mkCommand (py "echo hello") (py "x").
Definition pwd_command : Command := mkCommand (py "pwd") (py "/root").

(** The last character of a text is a newline. *)
Fixpoint ends_with_newline (s : str) : bool :=
  match s with
  | [] => false
  | [c] => Py.ascii_eqb c Py.LF
  | _ :: s' => ends_with_newline s'
  end.

(** A line the loops pass over: empty once stripped. *)
Definition blank (line : str) : bool := bool_decide (Py.strip line = []).

(** A prompt line, as the loop of [get_commands] tests it. *)
Definition is_prompt_line (p line : str) : bool :=
  negb (blank line) && Py.contains (Py.lower p) (Py.lower line).

(** [line.split(prompt, 1)[1]]. *)
Definition prompt_remainder (line p : str) : res str :=
  parts <- split1 line p ;; subscript parts 1.

Definition echo_pane : str :=
  py "P> echo hi" ++ nl ++ py "hi" ++ nl ++ py "P> wut" ++ nl ++ py " ".

Definition tmux_world (pane : str) : World :=
  mkWorld {[ py "TMUX" := py "/tmp/tmux-0/default,1,0" ]} ∅
    (py "/tmp/tmpk3x9") (Exited 0 pane) Missing.

(* ================================================================== *)
(** ** Shell discovery *)
(* ================================================================== *)

(** [os.environ.get("SHELL", None) or os.environ.get("TF_SHELL", None)]. *)
Definition environ_shell (environ : gmap str str) : option str :=
  match environ !! py "SHELL" with
  | Some (c :: s) => Some (c :: s)
  | _ => environ !! py "TF_SHELL"
  end.

(** The loop of [get_shell_name_and_path] over the current process and
    its ancestors, each given by its pid and its name; [proc.parent()]
    of the last one is [None]. *)
Fixpoint walk_processes (procs : list (Z * str)) (path : option str)
  : option str * option str :=
  match procs with
  | [] => (None, path)
  | (pid, _path) :: parents =>
      if 0 <? pid then
        match get_shell_name (Some _path) with
        | Some (c :: shell_name) => (Some (c :: shell_name), Some _path)
        | _ => walk_processes parents path
        end
      else (None, path)
  end.

Definition get_shell_name_and_path (environ : gmap str str)
  (procs : list (Z * str)) : option str * option str :=
  let path := environ_shell environ in
  match get_shell_name path with
  | Some (c :: shell_name) => (Some (c :: shell_name), path)
  | _ => walk_processes procs path
  end.

(** The double quote of the source's ['"${PS1@P}"'] literal. *)
Definition dquote : str := [ascii_of_N 34].

(** [get_shell_prompt]; [check_output cmd] is the standard output of the
    command, or [None] when the call raises (any exception is caught by
    the bare [except]). A [shell_path] of [None] in [cmd] makes the call
    raise. *)
Definition get_shell_prompt (check_output : list str -> option str)
  (shell_name shell_path : option str) : option str :=
  let run (args : list str) : option str :=
    match shell_path with
    | Some shell_path => check_output (shell_path :: args)
    | None => None
    end in
  let shell_prompt :=
    if bool_decide (shell_name = Some (py "zsh")) then
      run [py "-c"; py "print -P $PS1"]
    else if bool_decide (shell_name = Some (py "bash")) then
      run [py "echo"; dquote ++ py "${PS1@P}" ++ dquote]
    else if bool_decide (shell_name = Some (py "fish")) then
      run [py "fish_prompt"]
    else if bool_decide (shell_name ∈ [Some (py "csh"); Some (py "tcsh")]) then
      run [py "-c"; py "echo $prompt"]
    else if bool_decide
              (shell_name ∈ [Some (py "pwsh"); Some (py "powershell")]) then
      run [py "-c"; py "Write-Host $prompt"]
    else None in
  match shell_prompt with
  | Some (c :: s) => Some (Py.strip (c :: s))
  | _ => None
  end.

Definition get_shell (environ : gmap str str) (procs : list (Z * str))
  (check_output : list str -> option str) : Shell :=
  let '(name, path) := get_shell_name_and_path environ procs in
  let prompt := get_shell_prompt check_output name path in
  mkShell path name prompt.

(* ================================================================== *)
(** ** Query and provider *)
(* ================================================================== *)

Definition get_llm_provider (environ : gmap str str) : res str :=
  match environ !! py "OPENAI_API_KEY" with
  | Some (_ :: _) => Ok (py "openai")
  | _ =>
      match environ !! py "ANTHROPIC_API_KEY" with
      | Some (_ :: _) => Ok (py "anthropic")
      | _ => Raise ValueError
      end
  end.

Definition default_query : str :=
  py "Explain the last command's output. Use the previous commands as context, if relevant, but focus on the last command.".

Definition build_query (context : str) (query : option str) : str :=
  let query :=
    match query with
    | Some (c :: q) =>
        if bool_decide (Py.strip (c :: q) = []) then default_query
        else c :: q
    | _ => default_query
    end in
  context ++ nl ++ nl ++ query.

Section Explain.

(** The two prompts of [wut.prompts], the two provider calls and the
    renderer are outside this file. *)
Context (EXPLAIN_PROMPT ANSWER_PROMPT : str).
Context (run_openai run_anthropic : str -> str -> res str).
Context {Rendered : Type} (format_output : str -> Rendered).

Definition explain (environ : gmap str str) (context : str)
  (query : option str) : res Rendered :=
  let system_message :=
    match query with
    | Some (_ :: _) => ANSWER_PROMPT
    | _ => EXPLAIN_PROMPT
    end in
  let user_message := build_query context query in
  provider <- get_llm_provider environ ;;
  let call_llm :=
    if bool_decide (provider = py "openai") then run_openai
    else run_anthropic in
  output <- call_llm system_message user_message ;;
  Ok (format_output output).

End Explain.

(* ================================================================== *)
(** ** Further vocabulary and sample data *)
(* ================================================================== *)

(** The number of prompt lines of a pane. *)
Definition count_prompt_lines (p : str) (lines : list str) : nat :=
  length (List.filter (is_prompt_line p) lines).

(** A text without leading or trailing whitespace. *)
Definition stripped (s : str) : Prop := Py.strip s = s.

Definition slash : ascii := "/"%char.

Definition zsh_procs : list (Z * str) :=
  [(4242, py "python3"); (4100, py "zsh"); (1, py "systemd")].

Definition bin_zsh_environ : gmap str str := {[ py "SHELL" := py "/bin/zsh" ]}.

Definition zsh_check_output (cmd : list str) : option str :=
  if bool_decide (cmd = [py "zsh"; py "-c"; py "print -P $PS1"])
  then Some (py "P> " ++ nl) else None.

Definition screen_world (returncode : Z) (pane : str) : World :=
  mkWorld {[ py "STY" := py "1234.pts-0.host" ]} ∅
    (py "/tmp/tmpk3x9") Missing (Exited returncode pane).

Definition tmux_missing_world : World :=
  mkWorld {[ py "TMUX" := py "/tmp/tmux-0/default,1,0" ]} ∅
    (py "/tmp/tmpk3x9") Missing Missing.

Definition three_prompt_pane : str :=
  py "P> cd /tmp" ++ nl ++ py "P> ls" ++ nl ++ py "a.txt" ++ nl ++ nl
  ++ py "P> wut".

(* ================================================================== *)
(** * Checks of the embedding on concrete inputs *)
(* ================================================================== *)

Example splitlines_ex1 :
  Py.splitlines (py "line1" ++ nl ++ py "line2" ++ nl ++ nl)
  = [py "line1"; py "line2"; py ""].
Proof. reflexivity. Qed.

Example splitlines_ex2 :
  Py.splitlines (py "a" ++ [Py.CR; Py.LF] ++ py "b" ++ [Py.CR; Py.CR])
  = [py "a"; py "b"; []]
  /\ Py.splitlines nl = [[]] /\ Py.splitlines (py "a" ++ nl) = [py "a"].
Proof. repeat split. Qed.

Example strip_ex1 : Py.strip (py "  ls -la ") = py "ls -la".
Proof. reflexivity. Qed.

Example lower_ex1 : Py.lower (py "MyPrompt>") = py "myprompt>".
Proof. reflexivity. Qed.

Example join_ex1 : Py.join (py ",") [py "a"; py ""; py "b"] = py "a,,b".
Proof. reflexivity. Qed.

Example slice_ex1 :
  Py.slice_to [1; 2; 3] (-1) = [1; 2] /\ Py.slice_from [1; 2; 3] (-1) = [3]
  /\ Py.slice_from [1; 2; 3] 0 = [1; 2; 3] /\ Py.slice_to [1; 2; 3] 7 = [1; 2; 3].
Proof. repeat split. Qed.

Example partition_ex1 :
  Py.partition (py "P>") (py "xP> a P> b") = Some (py "x", py " a P> b")
  /\ Py.partition (py "myprompt>") (py "MyPrompt> ls -la") = None.
Proof. split; reflexivity. Qed.

Example splitext_ex :
  OsPath.splitext (py "prompt.zsh") = (py "prompt", py ".zsh")
  /\ OsPath.splitext (py "/bin/zsh") = (py "/bin/zsh", [])
  /\ OsPath.splitext (py "/a.b/.bashrc") = (py "/a.b/.bashrc", [])
  /\ OsPath.splitext (py "a/b.tar.gz") = (py "a/b.tar", py ".gz").
Proof. repeat split. Qed.

Example get_shell_name_ex :
  get_shell_name (Some (py "zsh")) = Some (py "zsh")
  /\ get_shell_name (Some (py "ZSH")) = Some (py "zsh")
  /\ get_shell_name (Some (py "zsh.exe")) = Some (py "zsh")
  /\ get_shell_name (Some (py "python")) = None.
Proof. repeat split. Qed.

Example get_commands_ex :
  get_commands (py "P> echo hi" ++ nl ++ py "hi" ++ nl ++ py "P> wut") P_shell
  = Ok [mkCommand (py "echo hi") (py "hi")].
Proof. vm_compute. reflexivity. Qed.

Example terminal_context_ex :
  terminal_context char_tokenizer
    (py "P> echo hi" ++ nl ++ py "hi" ++ nl ++ py "P> wut") P_shell 4096 3
  = Ok (py "<terminal_history>" ++ nl ++ py "<previous_commands>" ++ nl
        ++ nl ++ py "</previous_commands>" ++ nl ++ nl
        ++ py "<last_command>" ++ nl ++ py "P> echo hi" ++ nl ++ py "hi"
        ++ nl ++ py "</last_command>" ++ nl ++ py "</terminal_history>").
Proof. vm_compute. reflexivity. Qed.

(* ================================================================== *)
(** * Properties *)
(* ================================================================== *)

(** ** Lists *)

Lemma exists_last_or_nil {A} (l : list A) :
  l = [] \/ exists l' x, l = l' ++ [x].
Proof.
  induction l as [|a l IH]; [now left|right].
  destruct IH as [->|(l' & x & ->)].
  - now exists [], a.
  - now exists (a :: l'), x.
Qed.

(** ** Slices *)

Lemma adjust_all (len : nat) (i : Z) : Z.of_nat len <= i -> Py.adjust len i = len.
Proof.
  intros H. unfold Py.adjust.
  destruct (Z.ltb_spec i 0); [lia|].
  rewrite Z.min_r by lia. apply Nat2Z.id.
Qed.

Lemma slice_to_all {A} (l : list A) (n : Z) :
  Z.of_nat (length l) <= n -> Py.slice_to l n = l.
Proof.
  intros H. unfold Py.slice_to. rewrite adjust_all by exact H.
  apply firstn_all.
Qed.

Lemma slice_from_zero {A} (l : list A) : Py.slice_from l 0 = l.
Proof.
  unfold Py.slice_from, Py.adjust. simpl (_ <? _).
  rewrite Z.min_l by lia. reflexivity.
Qed.

Lemma slice_from_neg_all {A} (l : list A) (n : Z) :
  Z.of_nat (length l) <= n -> Py.slice_from l (- n) = l.
Proof.
  intros H. unfold Py.slice_from, Py.adjust.
  destruct (Z.ltb_spec (- n) 0) as [Hn|Hn].
  - rewrite Z.max_l by lia. reflexivity.
  - assert (length l = 0%nat) as Hl by lia.
    destruct l; [|discriminate]. now destruct (Z.to_nat _).
Qed.

Lemma slice_to_zero {A} (l : list A) : Py.slice_to l 0 = [].
Proof.
  unfold Py.slice_to, Py.adjust. simpl (_ <? _).
  rewrite Z.min_l by lia. reflexivity.
Qed.

Lemma slice_to_nonpos_short {A} (l : list A) (n : Z) :
  n <= 0 -> Z.of_nat (length l) <= - n -> Py.slice_to l n = [].
Proof.
  intros Hn H. unfold Py.slice_to, Py.adjust.
  destruct (Z.ltb_spec n 0).
  - rewrite Z.max_l by lia. reflexivity.
  - rewrite Z.min_l by lia. replace n with 0 by lia. reflexivity.
Qed.

Lemma slice_from_nonneg_long {A} (l : list A) (n : Z) :
  Z.of_nat (length l) <= n -> Py.slice_from l n = [].
Proof.
  intros H. unfold Py.slice_from. rewrite adjust_all by exact H.
  apply skipn_all.
Qed.

Lemma slice_from_one {A} (l : list A) : Py.slice_from l 1 = tl l.
Proof.
  unfold Py.slice_from, Py.adjust. simpl.
  destruct l as [|a l]; [reflexivity|].
  simpl length. rewrite Z.min_l by lia. reflexivity.
Qed.

Lemma slice_to_minus_one {A} (l : list A) : Py.slice_to l (-1) = removelast l.
Proof.
  unfold Py.slice_to, Py.adjust.
  destruct (Z.ltb_spec (-1) 0) as [_|?]; [|lia].
  destruct (exists_last_or_nil l) as [->|(l' & x & ->)].
  - reflexivity.
  - rewrite length_app, removelast_last. simpl length.
    replace (Z.to_nat _) with (length l') by lia.
    rewrite firstn_app, firstn_all, Nat.sub_diag. simpl. apply app_nil_r.
Qed.

(** ** The character tokenizer is a tokenizer *)

Lemma char_tokenizer_lossless : lossless char_tokenizer.
Proof.
  intros t. simpl. rewrite map_map.
  induction t as [|c t IH]; simpl; [reflexivity|].
  now rewrite ascii_nat_embedding, IH.
Qed.

Lemma char_tokenizer_decodes_empty : decodes_empty char_tokenizer.
Proof. reflexivity. Qed.

Lemma char_tokenizer_count (t : str) :
  count_tokens char_tokenizer t = Z.of_nat (length t).
Proof. unfold count_tokens. simpl. now rewrite length_map. Qed.

(** ** Token meter *)

(** C5. Whenever the budget covers the whole token sequence
    ([max_tokens >= count_tokens text]), [truncate_tokens] returns the
    text unchanged, for both values of [reverse]: the slice is the
    full sequence and decoding undoes encoding. *)
Theorem truncate_tokens_roundtrip (T : Tokenizer) (text : str)
  (max_tokens : Z) (reverse : bool) :
  lossless T ->
  count_tokens T text <= max_tokens ->
  truncate_tokens T text max_tokens reverse = text.
Proof.
  intros Hl Hn. unfold truncate_tokens, count_tokens in *.
  destruct reverse.
  - rewrite slice_from_neg_all by exact Hn. apply Hl.
  - rewrite slice_to_all by exact Hn. apply Hl.
Qed.

Lemma truncate_tokens_roundtrip_witness :
  lossless char_tokenizer
  /\ count_tokens char_tokenizer (py "ls -la") <= 6
  /\ truncate_tokens char_tokenizer (py "ls -la") 6 true = py "ls -la".
Proof.
  split; [exact char_tokenizer_lossless|].
  split; [vm_compute; discriminate|].
  apply (truncate_tokens_roundtrip char_tokenizer (py "ls -la") 6 true).
  - exact char_tokenizer_lossless.
  - vm_compute; discriminate.
Defined.

(** C3. With [max_tokens = 0] and [reverse = True] the slice
    [tokens[-0:]] is the whole token sequence, so [truncate_tokens]
    returns the text itself, which is not empty when the text is not. *)
Theorem truncate_tokens_zero_reverse (T : Tokenizer) (text : str) :
  lossless T ->
  text <> [] ->
  truncate_tokens T text 0 true = text
  /\ truncate_tokens T text 0 true <> [].
Proof.
  intros Hl Hne.
  assert (truncate_tokens T text 0 true = text) as E.
  { unfold truncate_tokens. simpl (- 0). rewrite slice_from_zero. apply Hl. }
  split; [exact E|]. now rewrite E.
Qed.

Lemma truncate_tokens_zero_reverse_witness :
  truncate_tokens char_tokenizer (py "a") 0 true = py "a"
  /\ truncate_tokens char_tokenizer (py "a") 0 true <> [].
Proof.
  apply (truncate_tokens_zero_reverse char_tokenizer (py "a")).
  - exact char_tokenizer_lossless.
  - discriminate.
Defined.

(** The sibling path: with [reverse = False] a zero budget does give the
    empty string, and so does any non-positive budget on a text of at
    most [- max_tokens] tokens. *)
Lemma truncate_tokens_zero_forward (T : Tokenizer) (text : str) :
  decodes_empty T -> truncate_tokens T text 0 false = [].
Proof. intros H. unfold truncate_tokens. now rewrite slice_to_zero. Qed.

Lemma truncate_tokens_nonpositive_short (T : Tokenizer) (text : str)
  (max_tokens : Z) (reverse : bool) :
  decodes_empty T ->
  max_tokens <= 0 ->
  count_tokens T text <= - max_tokens ->
  truncate_tokens T text max_tokens reverse = [].
Proof.
  intros H Hn Hc. unfold truncate_tokens, count_tokens in *.
  destruct reverse.
  - now rewrite slice_from_nonneg_long.
  - now rewrite slice_to_nonpos_short.
Qed.

(** A negative budget drops tokens from the far end instead. *)
Example truncate_tokens_negative :
  truncate_tokens char_tokenizer (py "abc") (-1) false = py "ab"
  /\ truncate_tokens char_tokenizer (py "abc") (-1) true = py "bc".
Proof. split; reflexivity. Qed.

(** ** Shell-name normalisation *)

Lemma ascii_eqb_eq (a b : ascii) : Py.ascii_eqb a b = true <-> a = b.
Proof.
  unfold Py.ascii_eqb, Py.code. rewrite N.eqb_eq. split; [|congruence].
  intros H. rewrite <- (ascii_N_embedding a), <- (ascii_N_embedding b).
  congruence.
Qed.

Lemma rfind_from_spec (c : ascii) (s : str) :
  forall i r, OsPath.rfind_from c s i = r -> 0 <= i ->
    r = -1 \/ (i <= r /\ exists t, skipn (Z.to_nat (r - i)) s = c :: t).
Proof.
  induction s as [|x s IH]; intros i r Hr Hi; simpl in Hr.
  - now left.
  - destruct (Z.leb_spec 0 (OsPath.rfind_from c s (i + 1))) as [Hpos|Hneg].
    + destruct (IH (i + 1) r Hr ltac:(lia)) as [->|(Hle & t & Ht)].
      * subst. lia.
      * right. split; [lia|]. exists t.
        replace (Z.to_nat (r - i)) with (S (Z.to_nat (r - (i + 1)))) by lia.
        exact Ht.
    + destruct (Py.ascii_eqb x c) eqn:E; [|now left].
      apply ascii_eqb_eq in E. subst. right. split; [lia|].
      exists s. now rewrite Z.sub_diag.
Qed.

(** The extension returned by [splitext] is empty or begins with the
    dot. *)
Lemma splitext_ext (p : str) :
  snd (OsPath.splitext p) = []
  \/ exists t, snd (OsPath.splitext p) = OsPath.extsep :: t.
Proof.
  unfold OsPath.splitext.
  destruct (_ && _) eqn:E; [|now left].
  apply andb_true_iff in E as [E _]. apply Z.ltb_lt in E.
  pose proof (rfind_from_spec OsPath.sep p 0 _ eq_refl ltac:(lia)) as Hs.
  pose proof (rfind_from_spec OsPath.extsep p 0 _ eq_refl ltac:(lia)) as Hd.
  fold (OsPath.rfind OsPath.sep p) in Hs.
  fold (OsPath.rfind OsPath.extsep p) in Hd.
  destruct Hd as [Hd|(_ & t & Ht)]; [lia|].
  right. exists t. simpl. now rewrite Z.sub_0_r in Ht.
Qed.

(** No string beginning with a dot, and no empty string, is a shell
    name: the first test of [get_shell_name] is never taken. *)
Lemma get_shell_name_extension_test (p : str) :
  bool_decide (Py.lower (snd (OsPath.splitext p)) ∈ SHELLS) = false.
Proof.
  apply bool_decide_eq_false. intros Hin.
  destruct (splitext_ext p) as [E|(t & E)]; rewrite E in Hin;
    unfold SHELLS in Hin; simpl in Hin;
    repeat (apply elem_of_cons in Hin as [Hin|Hin]; [discriminate Hin|]);
    now apply elem_of_nil in Hin.
Qed.

Lemma get_shell_name_result (p s : str) :
  get_shell_name (Some p) = Some s ->
  s = Py.lower (fst (OsPath.splitext p)) \/ s = Py.lower p.
Proof.
  unfold get_shell_name. destruct p as [|c p]; [discriminate|].
  rewrite get_shell_name_extension_test.
  repeat case_bool_decide; intros [= <-]; auto.
Qed.

(** C4. The extension [splitext] returns keeps its dot and its stem
    keeps the directory, so [get_shell_name] recognises neither
    ["prompt.zsh"] nor ["/bin/zsh"]. *)
Theorem get_shell_name_misses_extension_and_path :
  get_shell_name (Some (py "prompt.zsh")) = None
  /\ get_shell_name (Some (py "/bin/zsh")) = None.
Proof. split; vm_compute; reflexivity. Qed.

(** ** Segmenter: prompt matching *)

(** The membership test lowers both sides, the split does not: a line
    that matches only up to case has no second part. *)
Lemma get_commands_body_case_mismatch (shell : Shell) (p line : str)
  (st : seg_state) :
  prompt shell = Some p -> p <> [] ->
  Py.strip line <> [] ->
  Py.contains (Py.lower p) (Py.lower line) = true ->
  Py.partition p line = None ->
  get_commands_body shell st line = Raise IndexError.
Proof.
  intros Hp Hne Hs Hc Hpart. unfold get_commands_body.
  destruct st as [commands buffer].
  rewrite bool_decide_eq_false_2 by exact Hs.
  rewrite Hp, Hc. unfold split1. destruct p; [congruence|].
  now rewrite Hpart.
Qed.

(** When the prompt occurs in the line as it is written, the command
    text is the stripped remainder after its first occurrence. *)
Lemma get_commands_body_exact_match (shell : Shell) (p line a b : str)
  (commands : list Command) (buffer : list str) :
  prompt shell = Some p -> p <> [] ->
  Py.strip line <> [] ->
  Py.contains (Py.lower p) (Py.lower line) = true ->
  Py.partition p line = Some (a, b) ->
  get_commands_body shell (commands, buffer) line
  = Ok (commands
        ++ [mkCommand (Py.strip b) (Py.strip (Py.join nl (rev buffer)))], []).
Proof.
  intros Hp Hne Hs Hc Hpart. unfold get_commands_body.
  rewrite bool_decide_eq_false_2 by exact Hs.
  rewrite Hp, Hc. unfold split1. destruct p; [congruence|].
  now rewrite Hpart.
Qed.

(** C1. On the pane line ["MyPrompt> ls -la"] with prompt ["myprompt>"]
    the line is taken as a prompt line, [line.split(prompt, 1)] has one
    element, and [get_commands] raises [IndexError]; no command text is
    produced. *)
Theorem get_commands_case_mismatch_raises :
  get_commands (py "MyPrompt> ls -la") myprompt_shell = Raise IndexError
  /\ get_commands (py "MyPrompt> ls -la" ++ nl ++ py "MyPrompt> wut")
       myprompt_shell = Raise IndexError.
Proof. split; vm_compute; reflexivity. Qed.

Example get_commands_same_case :
  get_commands (py "myprompt> ls -la" ++ nl ++ py "myprompt> wut")
    myprompt_shell
  = Ok [mkCommand (py "ls -la") []].
Proof. vm_compute. reflexivity. Qed.

(** ** Pane capturer: the temporary file *)

Lemma getenv_true_write (w : World) (f c k : str) :
  getenv_true (write_file w f c) k = getenv_true w k.
Proof. reflexivity. Qed.

(** C2. When neither [TMUX] nor [STY] is set, [get_pane_output] returns
    [""] from inside the [try] statement: the temporary file it created
    (absent before the call) is still there when it returns. *)
Theorem get_pane_output_leaks_temp_file (w : World) :
  temp_fresh w ->
  getenv_true w (py "TMUX") = false ->
  getenv_true w (py "STY") = false ->
  files w !! temp_name w = None
  /\ fst (get_pane_output w) = Ok []
  /\ files (snd (get_pane_output w)) !! temp_name w = Some [].
Proof.
  intros [Hne Hfresh] Htmux Hsty. split; [exact Hfresh|].
  unfold get_pane_output. cbv zeta.
  rewrite !getenv_true_write, Htmux, Hsty. simpl.
  split; [reflexivity|]. apply lookup_insert_eq.
Qed.

Lemma get_pane_output_leaks_temp_file_witness :
  files bare_world !! temp_name bare_world = None
  /\ fst (get_pane_output bare_world) = Ok []
  /\ files (snd (get_pane_output bare_world)) !! temp_name bare_world
     = Some [].
Proof.
  apply (get_pane_output_leaks_temp_file bare_world).
  - split; [discriminate|reflexivity].
  - reflexivity.
  - reflexivity.
Defined.

(** The paths that leave through the end of the function do remove the
    file: the files are as they were before the call. *)
Lemma cleanup_restores (w : World) (c out : str) :
  temp_fresh w ->
  cleanup_and_return (write_file (write_file w (temp_name w) []) (temp_name w) c)
    (Some (temp_name w)) out = (Ok out, w).
Proof.
  intros [Hne Hfresh]. unfold cleanup_and_return.
  destruct (temp_name w) as [|a f] eqn:E; [congruence|].
  f_equal. destruct w as [env fs tn tc sh]. simpl in *. subst tn.
  unfold remove_file, write_file, with_files. simpl. f_equal.
  now rewrite delete_insert_eq, delete_insert_id.
Qed.

Lemma get_pane_output_tmux_cleans (w : World) (rc : Z) (out : str) :
  temp_fresh w ->
  getenv_true w (py "TMUX") = true ->
  tmux_capture w = Exited rc out ->
  get_pane_output w = (Ok out, w).
Proof.
  intros Hf Htmux Hrun. unfold get_pane_output. cbv zeta.
  rewrite !getenv_true_write, Htmux.
  change (tmux_capture (write_file _ _ _)) with (tmux_capture w).
  rewrite Hrun.
  change (temp_name (write_file w (temp_name w) [])) with (temp_name w).
  replace (read_file _ _) with out
    by (unfold read_file; simpl; now rewrite lookup_insert_eq).
  destruct Hf as [Hne Hfresh]. unfold cleanup_and_return.
  destruct (temp_name w) as [|a f] eqn:E; [congruence|].
  f_equal. destruct w as [env fs tn tc sh]. simpl in *. subst tn.
  unfold remove_file, write_file, with_files. simpl. f_equal.
  now rewrite !delete_insert_eq, delete_id.
Qed.

Lemma get_pane_output_screen_cleans (w : World) (rc : Z) (out : str) :
  temp_fresh w ->
  getenv_true w (py "TMUX") = false ->
  getenv_true w (py "STY") = true ->
  screen_hardcopy w = Exited rc out ->
  get_pane_output w = (Ok (if rc =? 0 then out else []), w).
Proof.
  intros Hf Htmux Hsty Hrun. unfold get_pane_output. cbv zeta.
  rewrite !getenv_true_write, Htmux, Hsty.
  change (screen_hardcopy (write_file _ _ _)) with (screen_hardcopy w).
  rewrite Hrun.
  change (temp_name (write_file w (temp_name w) [])) with (temp_name w).
  replace (read_file _ _) with out
    by (unfold read_file; simpl; now rewrite lookup_insert_eq).
  destruct (rc =? 0); now apply cleanup_restores.
Qed.

(** ** Budgeted truncator: commands *)

Lemma take_while_all {A} (f : A -> bool) (l : list A) :
  Forall (fun x => f x = true) l -> take_while f l = l.
Proof. induction 1 as [|x l Hx _ IH]; simpl; [|rewrite Hx, IH]; reflexivity. Qed.

Lemma take_while_stop {A} (f : A -> bool) (pre post : list A) (x : A) :
  Forall (fun x => f x = true) pre -> f x = false ->
  take_while f (pre ++ x :: post) = pre.
Proof.
  intros Hpre Hx. induction Hpre as [|y pre Hy _ IH]; simpl.
  - now rewrite Hx.
  - now rewrite Hy, IH.
Qed.

Lemma take_while_split {A} (f : A -> bool) (l : list A) :
  exists rest, l = take_while f l ++ rest
    /\ Forall (fun x => f x = true) (take_while f l)
    /\ (rest = [] \/ exists x r, rest = x :: r /\ f x = false).
Proof.
  induction l as [|x l (rest & E & Hall & Hrest)]; simpl.
  - exists []. auto.
  - destruct (f x) eqn:Hx.
    + exists rest. split; [|split].
      * simpl. congruence.
      * constructor; assumption.
      * exact Hrest.
    + exists (x :: l). split; [reflexivity|]. split; [constructor|].
      right. now exists x, l.
Qed.

Section TruncatorSpec.

Context (T : Tokenizer).

Lemma break_test (max_tokens : Z) (s : str) :
  (max_tokens <? count_tokens T s + 0) = negb (within T max_tokens s).
Proof.
  unfold within. rewrite Z.add_0_r.
  destruct (Z.ltb_spec max_tokens (count_tokens T s)),
           (Z.leb_spec (count_tokens T s) max_tokens); simpl; lia.
Qed.

Lemma truncate_output_loop_spec (max_tokens : Z) (lines acc : list str) :
  truncate_output_loop T lines 0 max_tokens acc
  = acc ++ take_while (within T max_tokens) lines.
Proof.
  revert acc. induction lines as [|l lines IH]; intros acc; simpl.
  - now rewrite app_nil_r.
  - rewrite break_test. destruct (within T max_tokens l); simpl.
    + rewrite IH, <- app_assoc. reflexivity.
    + now rewrite app_nil_r.
Qed.

Lemma truncate_commands_loop_spec (max_tokens : Z)
  (commands acc : list Command) :
  truncate_commands_loop T commands 0 max_tokens acc
  = acc ++ map (rebuilt T max_tokens)
             (take_while (fun c => within T max_tokens (text c)) commands).
Proof.
  revert acc. induction commands as [|c commands IH]; intros acc; simpl.
  - now rewrite app_nil_r.
  - rewrite break_test. destruct (within T max_tokens (text c)); simpl.
    + rewrite IH, <- app_assoc, truncate_output_loop_spec. reflexivity.
    + now rewrite app_nil_r.
Qed.

(** What [kept_lines] keeps: a suffix of the output's lines, all within
    the budget, preceded (if anything is dropped) by a line that is
    not. *)
Lemma kept_lines_suffix (max_tokens : Z) (out : str) :
  exists dropped,
    Py.splitlines out = dropped ++ kept_lines T max_tokens out
    /\ Forall (fun l => count_tokens T l <= max_tokens)
         (kept_lines T max_tokens out)
    /\ (dropped = []
        \/ exists d l, dropped = d ++ [l] /\ max_tokens < count_tokens T l).
Proof.
  unfold kept_lines.
  destruct (take_while_split (within T max_tokens) (rev (Py.splitlines out)))
    as (rest & E & Hall & Hrest).
  exists (rev rest). split; [|split].
  - rewrite <- rev_app_distr, <- E. symmetry. apply rev_involutive.
  - apply Forall_rev. eapply List.Forall_impl; [|exact Hall].
    intros l Hl. now apply Z.leb_le in Hl.
  - destruct Hrest as [->|(x & r & -> & Hx)]; [now left|right].
    exists (rev r), x. split; [reflexivity|].
    now apply Z.leb_gt in Hx.
Qed.

Lemma kept_lines_all (max_tokens : Z) (out : str) :
  Forall (fun l => count_tokens T l <= max_tokens) (Py.splitlines out) ->
  kept_lines T max_tokens out = Py.splitlines out.
Proof.
  intros H. unfold kept_lines. rewrite take_while_all.
  - apply rev_involutive.
  - apply Forall_rev. eapply List.Forall_impl; [|exact H].
    intros l Hl. now apply Z.leb_le.
Qed.

End TruncatorSpec.

(** C6. Every command and every output line is compared with the raw
    [max_tokens] on its own. The first command whose text is over the
    budget ends the loop: the commands before it are returned, each
    with its output rebuilt from the lines kept by the per-line test,
    and that command and the ones after it are dropped. *)
Theorem truncate_commands_stops_at_first_oversized (T : Tokenizer)
  (max_tokens : Z) (pre post : list Command) (c : Command) :
  Forall (fun c => count_tokens T (text c) <= max_tokens) pre ->
  max_tokens < count_tokens T (text c) ->
  truncate_commands T (pre ++ c :: post) max_tokens
  = map (rebuilt T max_tokens) pre.
Proof.
  intros Hpre Hc. unfold truncate_commands.
  rewrite truncate_commands_loop_spec, take_while_stop; [reflexivity| |].
  - eapply List.Forall_impl; [|exact Hpre].
    intros x Hx. now apply Z.leb_le.
  - unfold within. now apply Z.leb_gt.
Qed.

Lemma truncate_commands_stops_at_first_oversized_witness :
  truncate_commands char_tokenizer
    ([ls_command] ++ echo_command :: [pwd_command]) 5
  = map (rebuilt char_tokenizer 5) [ls_command]
  /\ map (rebuilt char_tokenizer 5) [ls_command]
     = [mkCommand (py "ls") (py "cc")].
Proof.
  split; [|reflexivity].
  apply (truncate_commands_stops_at_first_oversized char_tokenizer 5
           [ls_command] [pwd_command] echo_command).
  - repeat constructor. vm_compute. discriminate.
  - vm_compute. reflexivity.
Defined.

(** The budget is not a running total: two commands of eight tokens
    each pass a budget of four tokens per text and per line. *)
Example truncate_commands_not_cumulative :
  truncate_commands char_tokenizer
    [mkCommand (py "aaaa") (py "bbbb"); mkCommand (py "cccc") (py "dddd")] 4
  = [mkCommand (py "aaaa") (py "bbbb"); mkCommand (py "cccc") (py "dddd")].
Proof. reflexivity. Qed.

(** C10. If every command's text is within the budget, every line of
    its output is, and the output is the newline-join of its lines (the
    lines the loop sees, [output.splitlines()]; such an output has no
    trailing newline and no carriage return), [truncate_commands]
    returns the list as it was given. *)
Theorem truncate_commands_identity (T : Tokenizer) (max_tokens : Z)
  (commands : list Command) :
  Forall (fun c =>
            Py.join nl (Py.splitlines (output c)) = output c
            /\ count_tokens T (text c) <= max_tokens
            /\ Forall (fun l => count_tokens T l <= max_tokens)
                 (Py.splitlines (output c))) commands ->
  truncate_commands T commands max_tokens = commands.
Proof.
  intros H. unfold truncate_commands.
  rewrite truncate_commands_loop_spec, take_while_all.
  - simpl. induction H as [|c cs (Hj & _ & Hl) _ IH]; simpl; [reflexivity|].
    rewrite IH. f_equal. unfold rebuilt.
    rewrite kept_lines_all by exact Hl. rewrite Hj. now destruct c.
  - eapply List.Forall_impl; [|exact H].
    intros c (_ & Hc & _). now apply Z.leb_le.
Qed.

Lemma truncate_commands_identity_witness :
  truncate_commands char_tokenizer [ls_command; pwd_command] 10
  = [ls_command; pwd_command].
Proof.
  apply (truncate_commands_identity char_tokenizer 10
           [ls_command; pwd_command]).
  repeat constructor; vm_compute; discriminate.
Defined.

Lemma splitlines_nil (s : str) : Py.splitlines s = [] -> s = [].
Proof.
  destruct s as [|c s]; [reflexivity|]. simpl.
  destruct (Py.is_linebreak c); [discriminate|].
  destruct (Py.splitlines s); discriminate.
Qed.

Lemma join_cons_char (sep l : str) (c : ascii) (ls : list str) :
  Py.join sep ((c :: l) :: ls) = c :: Py.join sep (l :: ls).
Proof. destruct ls; reflexivity. Qed.

(** An output is the newline-join of its lines as soon as its only line
    boundaries are newlines and it does not end with one. *)
Lemma join_splitlines_id (s : str) :
  Forall (fun c => Py.is_linebreak c = true -> c = Py.LF) s ->
  ends_with_newline s = false ->
  Py.join nl (Py.splitlines s) = s.
Proof.
  induction s as [|c s IH]; intros Hall Hend; [reflexivity|].
  inversion Hall as [|? ? Hc Hs]; subst.
  assert (s <> [] -> ends_with_newline s = false) as Hend'.
  { intros Hne. destruct s; [congruence|exact Hend]. }
  cbn [Py.splitlines]. destruct (Py.is_linebreak c) eqn:Hlb.
  - rewrite (Hc eq_refl) in *. clear Hc.
    destruct s as [|c' s']; [discriminate Hend|].
    change (Py.ascii_eqb Py.LF Py.CR) with false. cbn [andb].
    specialize (IH Hs (Hend' ltac:(discriminate))).
    destruct (Py.splitlines (c' :: s')) as [|l ls] eqn:E.
    + apply splitlines_nil in E. discriminate.
    + cbn [Py.join]. rewrite <- IH. reflexivity.
  - destruct s as [|c' s']; [reflexivity|].
    specialize (IH Hs (Hend' ltac:(discriminate))).
    destruct (Py.splitlines (c' :: s')) as [|l ls] eqn:E.
    + apply splitlines_nil in E. discriminate.
    + rewrite join_cons_char, IH. reflexivity.
Qed.

(** A vertical tab or form feed is a line boundary too: an output that
    holds one comes back with a newline in its place. *)
Example truncate_commands_form_feed :
  truncate_commands char_tokenizer
    [mkCommand (py "ls") (py "a" ++ [ascii_of_N 12] ++ py "b")] 10
  = [mkCommand (py "ls") (py "a" ++ nl ++ py "b")].
Proof. reflexivity. Qed.

(** ** Flat mode *)

Lemma pane_body_blank (lines : list str) (line : str) :
  blank line = true -> pane_body (false, lines) line = (false, lines).
Proof.
  unfold blank, pane_body. intros ->. now rewrite andb_false_r.
Qed.

Lemma pane_body_nonblank (lines : list str) (line : str) (hit : bool) :
  blank line = false -> pane_body (hit, lines) line = (true, lines ++ [line]).
Proof.
  unfold blank, pane_body. intros Hb. rewrite Hb.
  assert (bool_decide (line = []) = false) as ->.
  { apply bool_decide_eq_false. intros ->.
    apply bool_decide_eq_false in Hb. now apply Hb. }
  reflexivity.
Qed.

Lemma pane_body_hit (lines : list str) (line : str) :
  pane_body (true, lines) line = (true, lines ++ [line]).
Proof. unfold pane_body. now destruct (_ && _). Qed.

Lemma pane_loop_blanks (ls : list str) (lines : list str) :
  Forall (fun l => blank l = true) ls ->
  fold_left pane_body ls (false, lines) = (false, lines).
Proof.
  induction 1 as [|l ls Hl _ IH]; cbn [fold_left]; [reflexivity|].
  now rewrite pane_body_blank.
Qed.

Lemma pane_loop_hit (ls : list str) (lines : list str) :
  fold_left pane_body ls (true, lines) = (true, lines ++ ls).
Proof.
  revert lines. induction ls as [|l ls IH]; intros lines; cbn [fold_left].
  - now rewrite app_nil_r.
  - now rewrite pane_body_hit, IH, <- app_assoc.
Qed.

(** The lines the loop of [truncate_pane_output] retains, and what is
    left of them after the first one is dropped. *)
Lemma pane_text_spec (output : str) (kept blanks : list str) :
  Py.splitlines output = kept ++ blanks ->
  Forall (fun l => blank l = true) blanks ->
  (forall k x, kept = k ++ [x] -> blank x = false) ->
  pane_text output = Py.join nl (removelast kept).
Proof.
  intros E Hb Hlast. unfold pane_text. rewrite E, rev_app_distr, fold_left_app.
  rewrite pane_loop_blanks by now apply Forall_rev.
  destruct (exists_last_or_nil kept) as [->|(k & x & ->)]; [reflexivity|].
  rewrite rev_app_distr. cbn [rev app fold_left].
  rewrite (pane_body_nonblank [] x false) by now apply (Hlast k x).
  rewrite pane_loop_hit, slice_from_one. cbn [snd app tl].
  now rewrite rev_involutive, removelast_last.
Qed.

(** C9. [truncate_pane_output] walks the lines from the bottom, passes
    over the trailing blank lines, retains every line from the first
    non-blank one on, drops the first retained line, and joins the rest
    in forward order before truncating and stripping; with a budget
    that covers it, ["line1\nline2\n\n"] gives exactly ["line1"]. *)
Theorem truncate_pane_output_flat (T : Tokenizer) (output : str)
  (max_tokens : Z) (kept blanks : list str) :
  lossless T ->
  Py.splitlines output = kept ++ blanks ->
  Forall (fun l => Py.strip l = []) blanks ->
  (forall k x, kept = k ++ [x] -> Py.strip x <> []) ->
  truncate_pane_output T output max_tokens
  = Py.strip
      (truncate_tokens T (Py.join nl (removelast kept)) max_tokens true)
  /\ (count_tokens T (py "line1") <= max_tokens ->
      truncate_pane_output T
        (py "line1" ++ nl ++ py "line2" ++ nl ++ nl) max_tokens
      = py "line1").
Proof.
  intros Hl E Hb Hlast. split.
  - unfold truncate_pane_output. erewrite pane_text_spec; [reflexivity|exact E| |].
    + eapply List.Forall_impl; [|exact Hb].
      intros l H. now apply bool_decide_eq_true.
    + intros k x Hk. apply bool_decide_eq_false. now apply (Hlast k x).
  - intros Hc. unfold truncate_pane_output.
    change (pane_text _) with (py "line1").
    unfold truncate_tokens. rewrite slice_from_neg_all by exact Hc.
    now rewrite Hl.
Qed.

Lemma truncate_pane_output_flat_witness :
  truncate_pane_output char_tokenizer
    (py "line1" ++ nl ++ py "line2" ++ nl ++ nl) 4096
  = Py.strip
      (truncate_tokens char_tokenizer
         (Py.join nl (removelast [py "line1"; py "line2"])) 4096 true)
  /\ (count_tokens char_tokenizer (py "line1") <= 4096 ->
      truncate_pane_output char_tokenizer
        (py "line1" ++ nl ++ py "line2" ++ nl ++ nl) 4096
      = py "line1").
Proof.
  apply (truncate_pane_output_flat char_tokenizer
           (py "line1" ++ nl ++ py "line2" ++ nl ++ nl) 4096
           [py "line1"; py "line2"] [[]]).
  - exact char_tokenizer_lossless.
  - reflexivity.
  - repeat constructor.
  - intros k x Hk.
    destruct k as [|a [|b [|c k]]]; simpl in Hk; simplify_eq.
    vm_compute. discriminate.
Defined.

(** Blank lines above the first retained line are kept. *)
Example truncate_pane_output_interior_blank :
  truncate_pane_output char_tokenizer
    (py "a" ++ nl ++ nl ++ py "b" ++ nl ++ py "wut" ++ nl ++ py " " ++ nl)
    4096
  = py "a" ++ nl ++ nl ++ py "b".
Proof. vm_compute. reflexivity. Qed.

(** ** Segmenter: the in-flight record *)

Lemma for_each_app {A S} (body : S -> A -> res S) (xs ys : list A) (s : S) :
  for_each body (xs ++ ys) s
  = (s' <- for_each body xs s ;; for_each body ys s').
Proof.
  revert s. induction xs as [|x xs IH]; intros s; simpl; [reflexivity|].
  destruct (body s x); simpl; [apply IH|reflexivity].
Qed.

Section Segmenter.

Context (shell : Shell) (p : str).
Hypothesis shell_prompt : prompt shell = Some p.

Lemma body_non_prompt (cs : list Command) (buf : list str) (line : str) :
  is_prompt_line p line = false ->
  get_commands_body shell (cs, buf) line
  = Ok (cs, buf ++ (if blank line then [] else [line])).
Proof.
  unfold is_prompt_line, get_commands_body, blank. intros H.
  destruct (bool_decide (Py.strip line = [])); simpl in *.
  - now rewrite app_nil_r.
  - now rewrite shell_prompt, H.
Qed.

Lemma body_prompt (cs : list Command) (buf : list str) (line : str) :
  is_prompt_line p line = true ->
  get_commands_body shell (cs, buf) line
  = (rest <- prompt_remainder line p ;;
     Ok (cs ++ [mkCommand (Py.strip rest)
                  (Py.strip (Py.join nl (rev buf)))], [])).
Proof.
  unfold is_prompt_line, get_commands_body, blank, prompt_remainder.
  intros H. apply andb_true_iff in H as [Hb Hc].
  apply negb_true_iff in Hb. rewrite Hb, shell_prompt, Hc.
  destruct (split1 line p); simpl; [|reflexivity].
  now destruct (subscript a 1).
Qed.

Lemma loop_non_prompt (ls : list str) (cs : list Command) (buf : list str) :
  Forall (fun l => is_prompt_line p l = false) ls ->
  for_each (get_commands_body shell) ls (cs, buf)
  = Ok (cs, buf ++ List.filter (fun l => negb (blank l)) ls).
Proof.
  intros H. revert buf.
  induction H as [|l ls Hl _ IH]; intros buf; cbn [for_each List.filter].
  - now rewrite app_nil_r.
  - rewrite body_non_prompt by exact Hl. cbn [bind]. rewrite IH.
    destruct (blank l); simpl; [now rewrite app_nil_r|].
    now rewrite <- app_assoc.
Qed.

(** The commands found so far are only ever extended. *)
Lemma body_prefix (cs : list Command) (buf : list str) (line : str) :
  get_commands_body shell (cs, buf) line
  = (st <- get_commands_body shell ([], buf) line ;;
     Ok (cs ++ fst st, snd st)).
Proof.
  unfold get_commands_body.
  destruct (bool_decide _); simpl; [now rewrite app_nil_r|].
  rewrite shell_prompt. destruct (Py.contains _ _); simpl.
  - destruct (split1 line p); simpl; [|reflexivity].
    now destruct (subscript a 1).
  - now rewrite app_nil_r.
Qed.

Lemma loop_prefix (ls : list str) (cs : list Command) (buf : list str) :
  for_each (get_commands_body shell) ls (cs, buf)
  = (st <- for_each (get_commands_body shell) ls ([], buf) ;;
     Ok (cs ++ fst st, snd st)).
Proof.
  revert cs buf. induction ls as [|l ls IH]; intros cs buf; cbn [for_each].
  - simpl. now rewrite app_nil_r.
  - rewrite body_prefix.
    destruct (get_commands_body shell ([], buf) l) as [[c1 b1]|e];
      cbn [bind fst snd]; [|reflexivity].
    rewrite (IH (cs ++ c1)), (IH c1).
    destruct (for_each (get_commands_body shell) ls ([], b1))
      as [[c2 b2]|e]; cbn [bind fst snd]; [|reflexivity].
    now rewrite app_assoc.
Qed.

(** The whole scan, split at the last prompt line. *)
Lemma scan_commands_last_prompt (pre post : list str) (pl : str) :
  is_prompt_line p pl = true ->
  Forall (fun l => is_prompt_line p l = false) post ->
  scan_commands (pre ++ pl :: post) shell
  = (rest <- prompt_remainder pl p ;;
     cs <- scan_commands pre shell ;;
     Ok (mkCommand (Py.strip rest)
           (Py.strip
              (Py.join nl (List.filter (fun l => negb (blank l)) post)))
         :: cs)).
Proof.
  intros Hpl Hpost. unfold scan_commands.
  rewrite rev_app_distr. cbn [rev]. rewrite <- app_assoc, !for_each_app.
  rewrite loop_non_prompt by now apply Forall_rev.
  cbn [bind for_each app]. rewrite body_prompt by exact Hpl.
  destruct (prompt_remainder pl p) as [rest|e]; cbn [bind]; [|reflexivity].
  rewrite loop_prefix.
  destruct (for_each (get_commands_body shell) (rev pre) ([], []))
    as [[c2 b2]|e]; cbn [bind fst snd app]; [|reflexivity].
  rewrite <- List.filter_rev, rev_involutive. reflexivity.
Qed.

End Segmenter.

(** C8. The list [get_commands] returns is the scan result without its
    first element. When the pane has a prompt line, that element is the
    record of the bottom-most one (its command text, and the lines
    below it as output), and what is returned is exactly the scan of
    the lines above it: nothing built from the final prompt line is
    returned. *)
Theorem get_commands_excludes_in_flight (shell : Shell) (p pane : str)
  (pre post : list str) (pl : str) :
  prompt shell = Some p ->
  Py.splitlines pane = pre ++ pl :: post ->
  is_prompt_line p pl = true ->
  Forall (fun l => is_prompt_line p l = false) post ->
  get_commands pane shell
  = (cs <- scan_commands (Py.splitlines pane) shell ;; Ok (tl cs))
  /\ scan_commands (Py.splitlines pane) shell
     = (rest <- prompt_remainder pl p ;;
        cs <- scan_commands pre shell ;;
        Ok (mkCommand (Py.strip rest)
              (Py.strip
                 (Py.join nl (List.filter (fun l => negb (blank l)) post)))
            :: cs))
  /\ get_commands pane shell
     = (_ <- prompt_remainder pl p ;; scan_commands pre shell).
Proof.
  intros Hp E Hpl Hpost.
  assert (get_commands pane shell
          = (cs <- scan_commands (Py.splitlines pane) shell ;; Ok (tl cs)))
    as Htl.
  { unfold get_commands.
    destruct (scan_commands _ shell); cbn [bind]; [|reflexivity].
    now rewrite slice_from_one. }
  split; [exact Htl|]. rewrite Htl, E.
  rewrite (scan_commands_last_prompt shell p Hp pre post pl Hpl Hpost).
  split; [reflexivity|].
  destruct (prompt_remainder pl p); cbn [bind]; [|reflexivity].
  now destruct (scan_commands pre shell).
Qed.

Lemma get_commands_excludes_in_flight_witness :
  (get_commands echo_pane P_shell
   = (cs <- scan_commands (Py.splitlines echo_pane) P_shell ;; Ok (tl cs))
   /\ scan_commands (Py.splitlines echo_pane) P_shell
      = (rest <- prompt_remainder (py "P> wut") (py "P>") ;;
         cs <- scan_commands [py "P> echo hi"; py "hi"] P_shell ;;
         Ok (mkCommand (Py.strip rest)
               (Py.strip
                  (Py.join nl
                     (List.filter (fun l => negb (blank l)) [py " "])))
             :: cs))
   /\ get_commands echo_pane P_shell
      = (_ <- prompt_remainder (py "P> wut") (py "P>") ;;
         scan_commands [py "P> echo hi"; py "hi"] P_shell))
  /\ get_commands echo_pane P_shell = Ok [mkCommand (py "echo hi") (py "hi")].
Proof.
  split; [|vm_compute; reflexivity].
  apply (get_commands_excludes_in_flight P_shell (py "P>") echo_pane
           [py "P> echo hi"; py "hi"] [py " "] (py "P> wut")).
  - reflexivity.
  - reflexivity.
  - vm_compute. reflexivity.
  - repeat constructor.
Defined.

(** Two prompt lines with the same text give equal records; the one that
    is returned is the upper one. *)
Example get_commands_same_record_twice :
  get_commands (py "P> ls" ++ nl ++ py "P> ls") P_shell
  = Ok [mkCommand (py "ls") []].
Proof. vm_compute. reflexivity. Qed.

(** ** Context assembler: the last command *)

Lemma subscript_last_rev {A} (l : list A) :
  subscript_last (rev l)
  = match l with
    | [] => Raise IndexError
    | a :: _ => Ok a
    end.
Proof. unfold subscript_last. now rewrite rev_involutive. Qed.

(** C7. In prompt mode, [commands[-1]] is reached with the commands left
    after slicing and truncation. If none is left (in particular if
    segmentation returned none), [get_terminal_context] raises
    [IndexError]; if one is, it returns a context string. *)
Theorem get_terminal_context_last_command (T : Tokenizer) (w : World)
  (shell : Shell) (max_tokens max_commands : Z) (pane p : str)
  (cmds : list Command) :
  fst (get_pane_output w) = Ok pane ->
  pane <> [] ->
  prompt shell = Some p ->
  p <> [] ->
  get_commands pane shell = Ok cmds ->
  (truncate_commands T (Py.slice_to cmds max_commands) max_tokens = [] ->
   fst (get_terminal_context T w shell max_tokens max_commands)
   = Raise IndexError)
  /\ (cmds = [] ->
      fst (get_terminal_context T w shell max_tokens max_commands)
      = Raise IndexError)
  /\ (truncate_commands T (Py.slice_to cmds max_commands) max_tokens <> [] ->
      exists context,
        fst (get_terminal_context T w shell max_tokens max_commands)
        = Ok context).
Proof.
  intros Hw Hpane Hp Hne Hcmds.
  assert (fst (get_terminal_context T w shell max_tokens max_commands)
          = terminal_context T pane shell max_tokens max_commands) as ->.
  { unfold get_terminal_context. destruct (get_pane_output w) as [r w'].
    simpl in Hw. subst r. reflexivity. }
  unfold terminal_context. destruct pane as [|c0 pane]; [congruence|].
  rewrite Hp. destruct p as [|c1 p]; [congruence|].
  rewrite Hcmds. cbn [bind]. rewrite subscript_last_rev.
  split; [|split].
  - intros E. now rewrite E.
  - intros ->. unfold Py.slice_to. now rewrite firstn_nil.
  - intros E.
    destruct (truncate_commands T (Py.slice_to cmds max_commands) max_tokens)
      as [|a l]; [congruence|].
    cbn [bind]. eexists. reflexivity.
Qed.

Lemma get_terminal_context_last_command_witness :
  (truncate_commands char_tokenizer (Py.slice_to [] 3) 4096 = [] ->
   fst (get_terminal_context char_tokenizer (tmux_world (py "P> wut"))
          P_shell 4096 3)
   = Raise IndexError)
  /\ ([] = @nil Command ->
      fst (get_terminal_context char_tokenizer (tmux_world (py "P> wut"))
             P_shell 4096 3)
      = Raise IndexError)
  /\ (truncate_commands char_tokenizer (Py.slice_to [] 3) 4096 <> [] ->
      exists context,
        fst (get_terminal_context char_tokenizer (tmux_world (py "P> wut"))
               P_shell 4096 3)
        = Ok context).
Proof.
  apply (get_terminal_context_last_command char_tokenizer
           (tmux_world (py "P> wut")) P_shell 4096 3 (py "P> wut") (py "P>") []).
  - rewrite (get_pane_output_tmux_cleans (tmux_world (py "P> wut")) 0
               (py "P> wut")); [reflexivity| | |].
    + split; [discriminate|reflexivity].
    + reflexivity.
    + reflexivity.
  - discriminate.
  - reflexivity.
  - discriminate.
  - vm_compute. reflexivity.
Defined.

(** The same branch is reached when slicing or truncation empties a
    segmentation that found a command. *)
Example terminal_context_sliced_empty :
  terminal_context char_tokenizer
    (py "P> echo hi" ++ nl ++ py "hi" ++ nl ++ py "P> wut") P_shell 4096 0
  = Raise IndexError
  /\ terminal_context char_tokenizer
       (py "P> echo hi" ++ nl ++ py "hi" ++ nl ++ py "P> wut") P_shell 3 3
     = Raise IndexError.
Proof. split; vm_compute; reflexivity. Qed.

(* ================================================================== *)
(** * Further properties *)
(* ================================================================== *)

Example get_shell_ex :
  get_shell bin_zsh_environ zsh_procs zsh_check_output
  = mkShell (Some (py "zsh")) (Some (py "zsh")) (Some (py "P>")).
Proof. vm_compute. reflexivity. Qed.

Example build_query_ex :
  build_query (py "ctx") (Some (py "  ")) = build_query (py "ctx") None
  /\ build_query (py "ctx") (Some (py " why? "))
     = py "ctx" ++ nl ++ nl ++ py " why? ".
Proof. split; reflexivity. Qed.

(** ** Shell names *)

Lemma lower_char_fixes (c x : ascii) :
  x = OsPath.extsep \/ x = slash ->
  Py.lower_char c = x -> c = x.
Proof.
  intros [-> | ->];
    destruct c as [[] [] [] [] [] [] [] []]; vm_compute; congruence.
Qed.

Lemma In_lower (x : ascii) (s : str) :
  x = OsPath.extsep \/ x = slash ->
  In x (Py.lower s) <-> In x s.
Proof.
  intros Hx. unfold Py.lower. rewrite in_map_iff. split.
  - intros (c & Hc & Hin). now rewrite <- (lower_char_fixes c x Hx Hc).
  - intros Hin. exists x. split; [|exact Hin].
    destruct Hx as [-> | ->]; reflexivity.
Qed.

Lemma SHELLS_plain (s : str) :
  s ∈ SHELLS -> s <> [] /\ ~ In OsPath.extsep s /\ ~ In slash s.
Proof.
  unfold SHELLS. intros Hin.
  repeat (apply elem_of_cons in Hin as [->|Hin];
          [split; [discriminate|];
           split; vm_compute; intuition discriminate|]).
  now apply elem_of_nil in Hin.
Qed.

Lemma rfind_from_absent (c : ascii) (s : str) (i : Z) :
  ~ In c s -> OsPath.rfind_from c s i = -1.
Proof.
  revert i. induction s as [|x s IH]; intros i Hin; simpl; [reflexivity|].
  rewrite IH by (intros H; apply Hin; now right). simpl.
  destruct (Py.ascii_eqb x c) eqn:E; [|reflexivity].
  apply ascii_eqb_eq in E. subst. exfalso. apply Hin. now left.
Qed.

Lemma rfind_from_present (c : ascii) (s : str) (i : Z) :
  In c s -> 0 <= i -> i <= OsPath.rfind_from c s i.
Proof.
  revert i. induction s as [|x s IH]; intros i Hin Hi; [destruct Hin|].
  simpl. destruct (Z.leb_spec 0 (OsPath.rfind_from c s (i + 1))) as [H|H].
  - destruct (rfind_from_spec c s (i + 1) _ eq_refl ltac:(lia)) as [E|[E _]];
      lia.
  - destruct Hin as [->|Hin].
    + assert (Py.ascii_eqb c c = true) as -> by now apply ascii_eqb_eq.
      lia.
    + specialize (IH (i + 1) Hin ltac:(lia)). lia.
Qed.

(** The stem of a path keeps every slash of the path. *)
Lemma splitext_stem_slash (p : str) :
  In slash p -> In slash (fst (OsPath.splitext p)).
Proof.
  intros Hin. unfold OsPath.splitext.
  destruct (_ && _) eqn:E; [|exact Hin]. simpl.
  apply andb_true_iff in E as [E _]. apply Z.ltb_lt in E.
  pose proof (rfind_from_present slash p 0 Hin ltac:(lia)) as Hs.
  destruct (rfind_from_spec slash p 0 _ eq_refl ltac:(lia))
    as [Hr|(_ & t & Ht)].
  { unfold slash in *. lia. }
  fold (OsPath.rfind OsPath.sep p) in *.
  change slash with OsPath.sep in *. fold (OsPath.rfind OsPath.sep p) in *.
  rewrite Z.sub_0_r in Ht.
  set (r := Z.to_nat (OsPath.rfind OsPath.sep p)) in *.
  set (d := Z.to_nat (OsPath.rfind OsPath.extsep p)).
  assert (r < d)%nat as Hrd by (subst r d; lia).
  rewrite <- (firstn_skipn r p), Ht.
  rewrite firstn_app, length_firstn.
  apply in_or_app. right.
  assert (exists k, (d - Nat.min r (length p))%nat = S k) as [k ->].
  { exists (d - Nat.min r (length p) - 1)%nat. lia. }
  now left.
Qed.

Lemma not_in_SHELLS_slash (s : str) : In slash s -> ~ s ∈ SHELLS.
Proof. intros Hin Hs. now apply SHELLS_plain in Hs as (_ & _ & Hs). Qed.

Lemma shell_name_member (shell_path : option str) (s : str) :
  get_shell_name shell_path = Some s -> s ∈ SHELLS.
Proof.
  unfold get_shell_name. destruct shell_path as [[|c p]|]; try discriminate.
  repeat case_bool_decide; now intros [= <-].
Qed.

(** X1. Whatever [get_shell_name] returns is one of the seven names of
    [SHELLS]. *)
Theorem get_shell_name_in_SHELLS (shell_path : option str) (s : str) :
  get_shell_name shell_path = Some s -> In s SHELLS.
Proof. intros H. now apply list_elem_of_In, (shell_name_member shell_path). Qed.

Lemma get_shell_name_in_SHELLS_witness :
  In (py "zsh") SHELLS.
Proof.
  apply (get_shell_name_in_SHELLS (Some (py "ZSH")) (py "zsh")).
  vm_compute. reflexivity.
Defined.

Lemma shell_name_slash (p : str) :
  In slash p -> get_shell_name (Some p) = None.
Proof.
  intros Hin. unfold get_shell_name.
  destruct p as [|c p]; [destruct Hin|].
  rewrite get_shell_name_extension_test.
  rewrite bool_decide_eq_false_2.
  2:{ apply not_in_SHELLS_slash, In_lower; [now right|].
      now apply splitext_stem_slash. }
  rewrite bool_decide_eq_false_2; [reflexivity|].
  apply not_in_SHELLS_slash, In_lower; [now right|exact Hin].
Qed.

(** X2. A candidate that contains a slash is never recognised: neither
    its stem nor the candidate itself can be a shell name. *)
Theorem get_shell_name_rejects_paths (p : str) :
  In slash p -> get_shell_name (Some p) = None.
Proof. exact (shell_name_slash p). Qed.

Lemma get_shell_name_rejects_paths_witness :
  get_shell_name (Some (py "/usr/local/bin/fish")) = None.
Proof.
  apply (get_shell_name_rejects_paths (py "/usr/local/bin/fish")).
  vm_compute. auto.
Defined.

Lemma splitext_no_dot (p : str) :
  ~ In OsPath.extsep p -> OsPath.splitext p = (p, []).
Proof.
  intros Hd. unfold OsPath.splitext, OsPath.rfind.
  rewrite (rfind_from_absent OsPath.extsep p 0 Hd).
  destruct (Z.ltb_spec (OsPath.rfind_from OsPath.sep p 0) (-1)) as [H|H];
    [|reflexivity].
  destruct (rfind_from_spec OsPath.sep p 0 _ eq_refl ltac:(lia)) as [E|[E _]];
    lia.
Qed.

(** X3. A bare shell name is recognised whatever its case: if the
    lowered candidate is in [SHELLS], it is the result. *)
Theorem get_shell_name_bare_name (p : str) :
  In (Py.lower p) SHELLS -> get_shell_name (Some p) = Some (Py.lower p).
Proof.
  intros Hin. apply list_elem_of_In in Hin.
  destruct (SHELLS_plain _ Hin) as (Hne & Hdot & _).
  unfold get_shell_name. destruct p as [|c p]; [now elim Hne|].
  rewrite get_shell_name_extension_test.
  rewrite splitext_no_dot by (intros H; apply Hdot, In_lower; auto).
  simpl fst. now rewrite bool_decide_eq_true_2.
Qed.

Lemma get_shell_name_bare_name_witness :
  get_shell_name (Some (py "PowerShell")) = Some (Py.lower (py "PowerShell")).
Proof.
  apply (get_shell_name_bare_name (py "PowerShell")).
  vm_compute. auto 10.
Defined.

Lemma rfind_from_app_last (c : ascii) (a b : str) (i : Z) :
  ~ In c b -> 0 <= i ->
  OsPath.rfind_from c (a ++ c :: b) i = i + Z.of_nat (length a).
Proof.
  intros Hb. revert i. induction a as [|x a IH]; intros i Hi.
  - simpl. rewrite (rfind_from_absent c b (i + 1) Hb). simpl.
    assert (Py.ascii_eqb c c = true) as -> by now apply ascii_eqb_eq.
    lia.
  - cbn [app OsPath.rfind_from]. rewrite IH by lia.
    destruct (Z.leb_spec 0 (i + 1 + Z.of_nat (length a))); simpl length; lia.
Qed.

Lemma splitext_stem_ext (stem ext : str) :
  stem <> [] -> ~ In OsPath.extsep stem -> ~ In slash stem ->
  ~ In OsPath.extsep ext -> ~ In slash ext ->
  OsPath.splitext (stem ++ OsPath.extsep :: ext)
  = (stem, OsPath.extsep :: ext).
Proof.
  intros Hne Hds Hss Hde Hse. unfold OsPath.splitext, OsPath.rfind.
  rewrite (rfind_from_absent OsPath.sep).
  2:{ intros H. apply in_app_or in H as [H|[H|H]]; [now apply Hss| |now apply Hse].
      discriminate H. }
  rewrite rfind_from_app_last by (auto; lia).
  replace (Z.to_nat (0 + Z.of_nat (length stem) - (-1 + 1)))
    with (length stem) by lia.
  replace (Z.to_nat (0 + Z.of_nat (length stem))) with (length stem) by lia.
  change (Z.to_nat (-1 + 1)) with 0%nat.
  change (drop 0 (stem ++ OsPath.extsep :: ext))
    with (stem ++ OsPath.extsep :: ext).
  rewrite take_app_length, drop_app_length.
  assert (existsb (fun ch => negb (Py.ascii_eqb ch OsPath.extsep)) stem = true)
    as ->.
  { destruct stem as [|c stem]; [congruence|]. simpl.
    destruct (Py.ascii_eqb c OsPath.extsep) eqn:E; [|reflexivity].
    apply ascii_eqb_eq in E. subst. exfalso. apply Hds. now left. }
  destruct (Z.ltb_spec (-1) (0 + Z.of_nat (length stem))); [reflexivity|lia].
Qed.

(** X4. An executable name with one extension ([zsh.exe]) is recognised
    by its stem, whatever the case of the stem. *)
Theorem get_shell_name_executable_extension (stem ext : str) :
  In (Py.lower stem) SHELLS ->
  ~ In OsPath.extsep ext -> ~ In slash ext ->
  get_shell_name (Some (stem ++ OsPath.extsep :: ext))
  = Some (Py.lower stem).
Proof.
  intros Hin Hde Hse. apply list_elem_of_In in Hin.
  destruct (SHELLS_plain _ Hin) as (Hne & Hdot & Hsl).
  assert (stem <> []) as Hne' by (intros ->; now apply Hne).
  unfold get_shell_name.
  destruct (stem ++ OsPath.extsep :: ext) as [|c p] eqn:E.
  { destruct stem; discriminate. }
  rewrite <- E. rewrite get_shell_name_extension_test.
  rewrite splitext_stem_ext; auto.
  - simpl fst. now rewrite bool_decide_eq_true_2.
  - intros H. apply Hdot, In_lower; auto.
  - intros H. apply Hsl, In_lower; auto.
Qed.

Lemma get_shell_name_executable_extension_witness :
  get_shell_name (Some (py "Bash" ++ OsPath.extsep :: py "exe"))
  = Some (Py.lower (py "Bash")).
Proof.
  apply (get_shell_name_executable_extension (py "Bash") (py "exe")).
  - vm_compute. auto.
  - vm_compute. intuition discriminate.
  - vm_compute. intuition discriminate.
Defined.

(** ** Shell discovery *)

Lemma shell_name_candidate (p s : str) :
  get_shell_name (Some p) = Some s -> s <> [] /\ ~ In slash p.
Proof.
  intros H. split.
  - now apply shell_name_member, SHELLS_plain in H.
  - intros Hin. rewrite (shell_name_slash p Hin) in H. discriminate.
Qed.

Lemma walk_processes_sound (procs : list (Z * str)) (path : option str)
  (n : str) (pa : option str) :
  walk_processes procs path = (Some n, pa) ->
  exists p, pa = Some p /\ get_shell_name (Some p) = Some n.
Proof.
  induction procs as [|[pid nm] procs IH]; cbn [walk_processes];
    [discriminate|].
  destruct (0 <? pid); [|discriminate].
  destruct (get_shell_name (Some nm)) as [[|c s]|] eqn:E; auto.
  intros H. simplify_eq. now exists nm.
Qed.

(** X5. When [get_shell_name_and_path] returns a shell name, the name is
    in [SHELLS] and the path returned with it is the candidate that was
    recognised, which holds no slash: it is a bare name, never an
    absolute path. *)
Theorem get_shell_name_and_path_sound (environ : gmap str str)
  (procs : list (Z * str)) (n : str) (pa : option str) :
  get_shell_name_and_path environ procs = (Some n, pa) ->
  In n SHELLS
  /\ exists p, pa = Some p /\ get_shell_name (Some p) = Some n
               /\ ~ In slash p.
Proof.
  unfold get_shell_name_and_path. intros H.
  assert (exists p, pa = Some p /\ get_shell_name (Some p) = Some n)
    as (p & -> & Hp).
  { destruct (get_shell_name (environ_shell environ)) as [[|c s]|] eqn:E;
      try now apply walk_processes_sound in H.
    simplify_eq.
    destruct (environ_shell environ) as [p|]; [now exists p|discriminate]. }
  split; [now apply list_elem_of_In, (shell_name_member (Some p))|].
  exists p. repeat split; auto. now apply (shell_name_candidate p n).
Qed.

Lemma get_shell_name_and_path_sound_witness :
  In (py "zsh") SHELLS
  /\ exists p, Some (py "zsh") = Some p
               /\ get_shell_name (Some p) = Some (py "zsh")
               /\ ~ In slash p.
Proof.
  apply (get_shell_name_and_path_sound bin_zsh_environ zsh_procs
           (py "zsh") (Some (py "zsh"))).
  vm_compute. reflexivity.
Defined.

Lemma walk_processes_skip (pre rest : list (Z * str)) (path : option str) :
  Forall (fun q => 0 < fst q /\ get_shell_name (Some (snd q)) = None) pre ->
  walk_processes (pre ++ rest) path = walk_processes rest path.
Proof.
  induction 1 as [|[pid nm] pre [Hpid Hnm] _ IH]; [reflexivity|].
  cbn [app walk_processes fst snd] in *.
  destruct (Z.ltb_spec 0 pid); [|lia]. now rewrite Hnm.
Qed.

(** X6. With no usable [SHELL]/[TF_SHELL] candidate, the walk returns the
    first ancestor whose name is recognised, together with that name as
    the path. *)
Theorem get_shell_name_and_path_first_ancestor (environ : gmap str str)
  (pre post : list (Z * str)) (pid : Z) (nm s : str) :
  get_shell_name (environ_shell environ) = None ->
  Forall (fun q => 0 < fst q /\ get_shell_name (Some (snd q)) = None) pre ->
  0 < pid ->
  get_shell_name (Some nm) = Some s ->
  get_shell_name_and_path environ (pre ++ (pid, nm) :: post)
  = (Some s, Some nm).
Proof.
  intros Henv Hpre Hpid Hnm. unfold get_shell_name_and_path.
  rewrite Henv, walk_processes_skip by exact Hpre. cbn [walk_processes].
  destruct (Z.ltb_spec 0 pid); [|lia]. rewrite Hnm.
  destruct s; [|reflexivity]. now apply shell_name_candidate in Hnm as [? _].
Qed.

Lemma get_shell_name_and_path_first_ancestor_witness :
  get_shell_name_and_path bin_zsh_environ
    ([(4242, py "python3")] ++ (4100, py "zsh") :: [(1, py "systemd")])
  = (Some (py "zsh"), Some (py "zsh")).
Proof.
  apply (get_shell_name_and_path_first_ancestor bin_zsh_environ
           [(4242, py "python3")] [(1, py "systemd")] 4100 (py "zsh")
           (py "zsh")).
  - vm_compute. reflexivity.
  - repeat constructor.
  - lia.
  - vm_compute. reflexivity.
Defined.

(** X7. The walk ends at the root of the process tree or at the first
    process whose pid is not positive; if nothing was recognised up to
    there, the result is no name and the environment's candidate as
    path, whatever lies above. *)
Theorem get_shell_name_and_path_not_found (environ : gmap str str)
  (pre rest : list (Z * str)) :
  get_shell_name (environ_shell environ) = None ->
  Forall (fun q => 0 < fst q /\ get_shell_name (Some (snd q)) = None) pre ->
  (rest = [] \/ exists pid nm rest', rest = (pid, nm) :: rest' /\ pid <= 0) ->
  get_shell_name_and_path environ (pre ++ rest)
  = (None, environ_shell environ).
Proof.
  intros Henv Hpre Hrest. unfold get_shell_name_and_path.
  rewrite Henv, walk_processes_skip by exact Hpre.
  destruct Hrest as [->|(pid & nm & rest' & -> & Hpid)]; [reflexivity|].
  cbn [walk_processes]. destruct (Z.ltb_spec 0 pid); [lia|reflexivity].
Qed.

Lemma get_shell_name_and_path_not_found_witness :
  get_shell_name_and_path bin_zsh_environ
    ([(4242, py "python3")] ++ [(0, py "kernel_task"); (7, py "zsh")])
  = (None, environ_shell bin_zsh_environ).
Proof.
  apply (get_shell_name_and_path_not_found bin_zsh_environ
           [(4242, py "python3")] [(0, py "kernel_task"); (7, py "zsh")]).
  - vm_compute. reflexivity.
  - repeat constructor.
  - right. exists 0, (py "kernel_task"), [(7, py "zsh")]. split; [reflexivity|lia].
Defined.

(** X8. A [SHELL] value that holds a slash (the usual absolute path)
    never names the shell: the result is the one of the process walk. *)
Theorem get_shell_name_and_path_ignores_absolute_SHELL
  (environ : gmap str str) (procs : list (Z * str)) (p : str) :
  environ !! py "SHELL" = Some p ->
  In slash p ->
  get_shell_name_and_path environ procs = walk_processes procs (Some p).
Proof.
  intros Henv Hin. unfold get_shell_name_and_path, environ_shell.
  rewrite Henv. destruct p as [|c p]; [destruct Hin|].
  now rewrite (shell_name_slash (c :: p) Hin).
Qed.

Lemma get_shell_name_and_path_ignores_absolute_SHELL_witness :
  get_shell_name_and_path bin_zsh_environ zsh_procs
  = walk_processes zsh_procs (Some (py "/bin/zsh")).
Proof.
  apply (get_shell_name_and_path_ignores_absolute_SHELL bin_zsh_environ
           zsh_procs (py "/bin/zsh")).
  - reflexivity.
  - vm_compute. auto.
Defined.

(** ** Stripping *)

Lemma drop_while_idem {A} (f : A -> bool) (l : list A) :
  Py.drop_while f (Py.drop_while f l) = Py.drop_while f l.
Proof.
  induction l as [|x l IH]; [reflexivity|]. simpl.
  destruct (f x) eqn:E; [exact IH|]. simpl. now rewrite E.
Qed.

Lemma drop_while_head {A} (f : A -> bool) (l : list A) :
  Py.drop_while f l = []
  \/ exists x t, Py.drop_while f l = x :: t /\ f x = false.
Proof.
  induction l as [|x l IH]; [now left|]. simpl.
  destruct (f x) eqn:E; [exact IH|]. right. now exists x, l.
Qed.

Lemma drop_while_app_stop {A} (f : A -> bool) (l : list A) (x : A) :
  f x = false -> exists l', Py.drop_while f (l ++ [x]) = l' ++ [x].
Proof.
  intros Hx. induction l as [|y l (l' & IH)]; simpl.
  - rewrite Hx. now exists [].
  - destruct (f y); [now exists l'|]. now exists (y :: l).
Qed.

Lemma strip_idempotent (s : str) : Py.strip (Py.strip s) = Py.strip s.
Proof.
  unfold Py.strip, Py.rstrip, Py.lstrip.
  set (u := Py.drop_while Py.is_space (rev (Py.drop_while Py.is_space s))).
  assert (Py.drop_while Py.is_space (rev u) = rev u) as ->.
  { subst u. destruct (drop_while_head Py.is_space s) as [->|(x & t & -> & Hx)];
      [reflexivity|].
    cbn [rev].
    destruct (drop_while_app_stop Py.is_space (rev t) x Hx) as (l' & ->).
    rewrite rev_app_distr. simpl. now rewrite Hx. }
  rewrite rev_involutive. subst u. now rewrite drop_while_idem.
Qed.

(** ** Prompt resolution *)

Lemma get_shell_prompt_none_name (check_output : list str -> option str)
  (shell_path : option str) :
  get_shell_prompt check_output None shell_path = None.
Proof. reflexivity. Qed.

(** X9. [get_shell_prompt] gives no prompt for a shell name outside the
    seven supported ones (or no name), and for a missing shell path,
    whatever the commands would print. *)
Theorem get_shell_prompt_unsupported (check_output : list str -> option str)
  (shell_name shell_path : option str) :
  (forall s, shell_name = Some s -> ~ In s SHELLS) \/ shell_path = None ->
  get_shell_prompt check_output shell_name shell_path = None.
Proof.
  intros [H| ->]; unfold get_shell_prompt.
  - assert (forall s, In s SHELLS -> shell_name <> Some s) as Hn
        by (intros s Hs E; now apply (H s)).
    repeat (rewrite bool_decide_eq_false_2;
            [|first [ apply Hn; vm_compute; tauto
                    | intros Hin;
                      repeat (apply elem_of_cons in Hin as [Hin|Hin];
                              [revert Hin; apply Hn; vm_compute; tauto|]);
                      now apply elem_of_nil in Hin ]]).
    reflexivity.
  - repeat case_bool_decide; reflexivity.
Qed.

Lemma get_shell_prompt_unsupported_witness :
  get_shell_prompt zsh_check_output (Some (py "nu")) (Some (py "nu")) = None.
Proof.
  apply (get_shell_prompt_unsupported zsh_check_output (Some (py "nu"))
           (Some (py "nu"))).
  left. intros s [= <-]. vm_compute. intuition discriminate.
Defined.

(** X10. A prompt returned by [get_shell_prompt] is what a command printed,
    stripped: it has no leading or trailing whitespace. A command that
    prints only whitespace gives the empty prompt, not [None]. *)
Theorem get_shell_prompt_stripped (check_output : list str -> option str)
  (shell_name shell_path : option str) (r : str) :
  get_shell_prompt check_output shell_name shell_path = Some r ->
  stripped r
  /\ exists cmd printed,
       check_output cmd = Some printed /\ printed <> []
       /\ r = Py.strip printed.
Proof.
  unfold get_shell_prompt, stripped. intros H.
  destruct shell_path as [sp|].
  2:{ repeat case_bool_decide; discriminate. }
  cbv zeta beta in H.
  repeat case_bool_decide;
    lazymatch type of H with
    | match check_output ?cmd with _ => _ end = _ =>
        destruct (check_output cmd) as [[|c s]|] eqn:E; try discriminate;
        injection H as <-; split; [apply strip_idempotent|];
        exists cmd, (c :: s); split; [exact E|]; split;
          [discriminate|reflexivity]
    | _ => discriminate
    end.
Qed.

Lemma get_shell_prompt_stripped_witness :
  stripped (py "P>")
  /\ exists cmd printed,
       zsh_check_output cmd = Some printed /\ printed <> []
       /\ py "P>" = Py.strip printed.
Proof.
  apply (get_shell_prompt_stripped zsh_check_output (Some (py "zsh"))
           (Some (py "zsh")) (py "P>")).
  vm_compute. reflexivity.
Defined.

Example get_shell_prompt_whitespace :
  get_shell_prompt (fun _ => Some (py " " ++ nl)) (Some (py "fish"))
    (Some (py "fish")) = Some [].
Proof. vm_compute. reflexivity. Qed.

(** ** Segmenter: when it returns, and what *)

Section SegmenterTotal.

Context (shell : Shell) (p : str).
Hypothesis shell_prompt : prompt shell = Some p.
Hypothesis prompt_not_empty : p <> [].

Lemma prompt_remainder_cases (line : str) :
  prompt_remainder line p
  = match Py.partition p line with
    | Some (_, b) => Ok b
    | None => Raise IndexError
    end.
Proof.
  unfold prompt_remainder, split1. generalize prompt_not_empty.
  destruct p as [|c0 p0]; [congruence|]. intros _.
  now destruct (Py.partition (c0 :: p0) line) as [[a b]|].
Qed.

(** The loop returns when every prompt line holds the prompt as it is
    written, and then finds one command per prompt line. *)
Lemma loop_exact (ls : list str) (cs : list Command) (buf : list str) :
  Forall (fun l => is_prompt_line p l = true -> Py.partition p l <> None) ls ->
  exists cs' buf',
    for_each (get_commands_body shell) ls (cs, buf) = Ok (cs', buf')
    /\ length cs' = (length cs + count_prompt_lines p ls)%nat.
Proof.
  intros H. revert cs buf.
  induction H as [|l ls Hl _ IH]; intros cs buf.
  - exists cs, buf. split; [reflexivity|]. unfold count_prompt_lines. simpl. lia.
  - cbn [for_each]. unfold count_prompt_lines. cbn [List.filter].
    destruct (is_prompt_line p l) eqn:E.
    + rewrite (body_prompt shell p shell_prompt) by exact E.
      rewrite prompt_remainder_cases.
      destruct (Py.partition p l) as [[a b]|]; [|now elim Hl].
      cbn [bind].
      destruct (IH (cs ++ [mkCommand (Py.strip b)
                             (Py.strip (Py.join nl (rev buf)))]) [])
        as (cs' & buf' & -> & Hlen).
      exists cs', buf'. split; [reflexivity|].
      rewrite Hlen, length_app. unfold count_prompt_lines. simpl. lia.
    + rewrite (body_non_prompt shell p shell_prompt) by exact E.
      cbn [bind]. apply IH.
Qed.

(** The loop raises nothing but [IndexError], and returns only if no
    prompt line matches merely up to case. *)
Lemma loop_outcome (ls : list str) (st : seg_state) :
  (exists st', for_each (get_commands_body shell) ls st = Ok st'
               /\ Forall (fun l => is_prompt_line p l = true ->
                                   Py.partition p l <> None) ls)
  \/ (for_each (get_commands_body shell) ls st = Raise IndexError
      /\ Exists (fun l => is_prompt_line p l = true
                          /\ Py.partition p l = None) ls).
Proof.
  revert st. induction ls as [|l ls IH]; intros [cs buf].
  - left. exists (cs, buf). now split.
  - cbn [for_each]. destruct (is_prompt_line p l) eqn:E.
    + rewrite (body_prompt shell p shell_prompt) by exact E.
      rewrite prompt_remainder_cases.
      destruct (Py.partition p l) as [[a b]|] eqn:Hpart; cbn [bind].
      * destruct (IH (cs ++ [mkCommand (Py.strip b)
                               (Py.strip (Py.join nl (rev buf)))], []))
          as [(st' & -> & Hall)|(-> & Hex)].
        -- left. exists st'. split; [reflexivity|].
           constructor; [congruence|exact Hall].
        -- right. split; [reflexivity|]. now apply Exists_cons_tl.
      * right. split; [reflexivity|]. now apply Exists_cons_hd.
    + rewrite (body_non_prompt shell p shell_prompt) by exact E.
      cbn [bind].
      destruct (IH (cs, buf ++ (if blank l then [] else [l])))
        as [(st' & -> & Hall)|(-> & Hex)].
      * left. exists st'. split; [reflexivity|].
        constructor; [congruence|exact Hall].
      * right. split; [reflexivity|]. now apply Exists_cons_tl.
Qed.

End SegmenterTotal.

Lemma Forall_rev_iff {A} (P : A -> Prop) (l : list A) :
  Forall P (rev l) <-> Forall P l.
Proof.
  split; intros H; [|now apply List.Forall_rev].
  rewrite <- (rev_involutive l). now apply List.Forall_rev.
Qed.

Lemma count_prompt_lines_rev (p : str) (ls : list str) :
  count_prompt_lines p (rev ls) = count_prompt_lines p ls.
Proof.
  unfold count_prompt_lines. now rewrite List.filter_rev, length_rev.
Qed.

(** X11. With a non-empty prompt, if every prompt line of the pane holds
    the prompt as it is written, [get_commands] returns, and it returns
    one command per prompt line but the bottom-most one. *)
Theorem get_commands_count (shell : Shell) (p pane : str) :
  prompt shell = Some p ->
  p <> [] ->
  Forall (fun l => is_prompt_line p l = true -> Py.partition p l <> None)
    (Py.splitlines pane) ->
  exists cs,
    get_commands pane shell = Ok cs
    /\ length cs = pred (count_prompt_lines p (Py.splitlines pane)).
Proof.
  intros Hp Hne Hall. unfold get_commands, scan_commands.
  destruct (loop_exact shell p Hp Hne (rev (Py.splitlines pane)) [] [])
    as (cs & buf & -> & Hlen).
  { now apply Forall_rev_iff. }
  cbn [bind fst]. exists (Py.slice_from cs 1). split; [reflexivity|].
  rewrite slice_from_one, count_prompt_lines_rev in *.
  destruct cs; simpl in *; lia.
Qed.

Lemma get_commands_count_witness :
  exists cs,
    get_commands three_prompt_pane P_shell = Ok cs
    /\ length cs = pred (count_prompt_lines (py "P>")
                           (Py.splitlines three_prompt_pane)).
Proof.
  apply (get_commands_count P_shell (py "P>") three_prompt_pane).
  - reflexivity.
  - discriminate.
  - repeat constructor; vm_compute; discriminate.
Defined.

Lemma get_commands_returns_iff_aux (shell : Shell) (p pane : str) :
  prompt shell = Some p ->
  p <> [] ->
  ((exists cs, get_commands pane shell = Ok cs)
   <-> Forall (fun l => is_prompt_line p l = true ->
                        Py.partition p l <> None) (Py.splitlines pane))
  /\ ((exists cs, get_commands pane shell = Ok cs)
      \/ get_commands pane shell = Raise IndexError).
Proof.
  intros Hp Hne. unfold get_commands, scan_commands.
  destruct (loop_outcome shell p Hp Hne (rev (Py.splitlines pane)) ([], []))
    as [(st' & -> & Hall)|(-> & Hex)]; cbn [bind].
  - apply (proj1 (Forall_rev_iff _ _)) in Hall. split; [|left; eauto].
    split; [intros _; exact Hall|intros _; eauto].
  - split; [|now right].
    split; [intros (cs & [=])|].
    intros Hall. apply (proj2 (Forall_rev_iff _ _)) in Hall.
    apply Exists_exists in Hex as (l & Hin & Hl & Hnone).
    rewrite Forall_forall in Hall. now elim (Hall l Hin Hl).
Qed.

(** X12. With a non-empty prompt, [get_commands] returns exactly when no
    prompt line matches the prompt merely up to case; otherwise it
    raises [IndexError], and it raises nothing else. *)
Theorem get_commands_returns_iff (shell : Shell) (p pane : str) :
  prompt shell = Some p ->
  p <> [] ->
  ((exists cs, get_commands pane shell = Ok cs)
   <-> Forall (fun l => is_prompt_line p l = true ->
                        Py.partition p l <> None) (Py.splitlines pane))
  /\ ((exists cs, get_commands pane shell = Ok cs)
      \/ get_commands pane shell = Raise IndexError).
Proof. exact (get_commands_returns_iff_aux shell p pane). Qed.

Lemma get_commands_returns_iff_witness :
  ((exists cs, get_commands three_prompt_pane P_shell = Ok cs)
   <-> Forall (fun l => is_prompt_line (py "P>") l = true ->
                        Py.partition (py "P>") l <> None)
         (Py.splitlines three_prompt_pane))
  /\ ((exists cs, get_commands three_prompt_pane P_shell = Ok cs)
      \/ get_commands three_prompt_pane P_shell = Raise IndexError).
Proof.
  apply (get_commands_returns_iff P_shell (py "P>") three_prompt_pane).
  - reflexivity.
  - discriminate.
Defined.

Lemma body_stripped (shell : Shell) (st st' : seg_state) (line : str) :
  get_commands_body shell st line = Ok st' ->
  Forall (fun c => stripped (text c) /\ stripped (output c)) (fst st) ->
  Forall (fun c => stripped (text c) /\ stripped (output c)) (fst st').
Proof.
  destruct st as [cs buf]. unfold get_commands_body.
  case_bool_decide; [now intros [= <-]|].
  destruct (prompt shell) as [sp|]; [|discriminate].
  destruct (Py.contains _ _); [|now intros [= <-]].
  destruct (split1 line sp) as [parts|]; [|discriminate]. cbn [bind].
  destruct (subscript parts 1) as [rest|]; [|discriminate]. cbn [bind].
  intros [= <-] Hcs. cbn [fst] in *. apply Forall_app. split; [exact Hcs|].
  constructor; [|constructor]. split; apply strip_idempotent.
Qed.

Lemma loop_stripped (shell : Shell) (ls : list str) (st st' : seg_state) :
  for_each (get_commands_body shell) ls st = Ok st' ->
  Forall (fun c => stripped (text c) /\ stripped (output c)) (fst st) ->
  Forall (fun c => stripped (text c) /\ stripped (output c)) (fst st').
Proof.
  revert st. induction ls as [|l ls IH]; intros st; cbn [for_each].
  - now intros [= <-].
  - destruct (get_commands_body shell st l) as [st1|] eqn:E; [|discriminate].
    cbn [bind]. intros H Hst. apply (IH st1 H).
    now apply (body_stripped shell st st1 l).
Qed.

(** X13. Every command [get_commands] returns has a text and an output
    without leading or trailing whitespace. *)
Theorem get_commands_records_stripped (pane : str) (shell : Shell)
  (cs : list Command) :
  get_commands pane shell = Ok cs ->
  Forall (fun c => stripped (text c) /\ stripped (output c)) cs.
Proof.
  unfold get_commands, scan_commands.
  destruct (for_each _ _ _) as [st|] eqn:E; [|discriminate]. cbn [bind].
  intros [= <-]. rewrite slice_from_one.
  apply loop_stripped in E; [|constructor].
  destruct (fst st); [constructor|]. now inversion E.
Qed.

Lemma get_commands_records_stripped_witness :
  Forall (fun c => stripped (text c) /\ stripped (output c))
    [mkCommand (py "echo hi") (py "hi")].
Proof.
  apply (get_commands_records_stripped echo_pane P_shell).
  vm_compute. reflexivity.
Defined.

Lemma forallb_rev_eq {A} (f : A -> bool) (l : list A) :
  forallb f (rev l) = forallb f l.
Proof.
  induction l as [|x l IH]; [reflexivity|]. simpl.
  rewrite forallb_app, IH. simpl. rewrite andb_true_r. apply andb_comm.
Qed.

Lemma loop_without_prompt (shell : Shell) (e : exn) (ls : list str)
  (st : seg_state) :
  (forall st line, blank line = false ->
                   get_commands_body shell st line = Raise e) ->
  for_each (get_commands_body shell) ls st
  = if forallb blank ls then Ok st else Raise e.
Proof.
  intros Hbody. revert st. induction ls as [|l ls IH]; intros [cs buf];
    cbn [for_each forallb]; [reflexivity|].
  destruct (blank l) eqn:E; cbn [andb].
  - unfold get_commands_body. unfold blank in E. rewrite E. cbn [bind].
    apply IH.
  - now rewrite Hbody.
Qed.

(** X14. Called with a shell whose prompt is [None] or empty,
    [get_commands] returns the empty list on a pane of blank lines and
    raises on any other pane: [AttributeError] for [None],
    [ValueError] for the empty prompt. *)
Theorem get_commands_without_prompt (pane : str) (shell : Shell) :
  prompt shell = None \/ prompt shell = Some [] ->
  get_commands pane shell
  = if forallb blank (Py.splitlines pane) then Ok []
    else Raise (match prompt shell with
                | None => AttributeError
                | Some _ => ValueError
                end).
Proof.
  intros Hp. unfold get_commands, scan_commands.
  rewrite (loop_without_prompt shell
             (match prompt shell with
              | None => AttributeError
              | Some _ => ValueError
              end)).
  - rewrite forallb_rev_eq. now destruct (forallb blank (Py.splitlines pane)).
  - intros [cs buf] line Hb. unfold get_commands_body.
    unfold blank in Hb. rewrite Hb. destruct Hp as [-> | ->]; [reflexivity|].
    now destruct (Py.lower line).
Qed.

Lemma get_commands_without_prompt_witness :
  get_commands (py "P> ls") (mkShell None None None)
  = if forallb blank (Py.splitlines (py "P> ls")) then Ok []
    else Raise AttributeError.
Proof.
  apply (get_commands_without_prompt (py "P> ls") (mkShell None None None)).
  now left.
Defined.

(** ** Context assembler: what it raises, and its frame *)

(** X15. From the captured pane on, [get_terminal_context] either returns
    a context or raises [IndexError]; no other exception leaves it,
    whatever the pane, the shell and the two bounds. *)
Theorem terminal_context_only_IndexError (T : Tokenizer) (pane : str)
  (shell : Shell) (max_tokens max_commands : Z) :
  (exists context,
      terminal_context T pane shell max_tokens max_commands = Ok context)
  \/ terminal_context T pane shell max_tokens max_commands = Raise IndexError.
Proof.
  unfold terminal_context. destruct pane as [|c0 pane]; [eauto|].
  destruct (prompt shell) as [[|c1 p]|] eqn:Hp; [eauto| |eauto].
  destruct (proj2 (get_commands_returns_iff_aux shell (c1 :: p) (c0 :: pane)
                     Hp ltac:(discriminate))) as [(cs & ->)| ->];
    [|now right].
  cbn [bind]. rewrite subscript_last_rev.
  destruct (truncate_commands T _ _); [now right|]. cbn [bind]. eauto.
Qed.

Lemma literal_wrapped :
  py "<terminal_history>No terminal output found.</terminal_history>"
  = py "<terminal_history>" ++ py "No terminal output found."
    ++ py "</terminal_history>".
Proof. reflexivity. Qed.

(** X16. Every context [get_terminal_context] returns opens with
    [<terminal_history>] and closes with [</terminal_history>]. *)
Theorem terminal_context_wrapped (T : Tokenizer) (pane : str)
  (shell : Shell) (max_tokens max_commands : Z) (context : str) :
  terminal_context T pane shell max_tokens max_commands = Ok context ->
  exists body,
    context = py "<terminal_history>" ++ body ++ py "</terminal_history>".
Proof.
  unfold terminal_context. destruct pane as [|c0 pane].
  { intros [= <-]. eexists. apply literal_wrapped. }
  destruct (prompt shell) as [[|c1 p]|] eqn:Hp.
  - intros [= <-].
    exists (nl ++ truncate_pane_output T (c0 :: pane) max_tokens ++ nl).
    now rewrite <- !app_assoc.
  - destruct (get_commands _ shell) as [cs|]; [|discriminate]. cbn [bind].
    destruct (subscript_last _) as [last_command|]; [|discriminate].
    cbn [bind]. intros [= <-].
    match goal with
    | |- context [Py.join nl ?m] =>
        exists (nl ++ py "<previous_commands>" ++ nl ++ Py.join nl m ++ nl
                ++ py "</previous_commands>" ++ nl ++ nl
                ++ py "<last_command>" ++ nl
                ++ command_to_string last_command (Some (c1 :: p))
                ++ nl ++ py "</last_command>" ++ nl)
    end.
    now rewrite <- !app_assoc.
  - intros [= <-].
    exists (nl ++ truncate_pane_output T (c0 :: pane) max_tokens ++ nl).
    now rewrite <- !app_assoc.
Qed.

Lemma terminal_context_wrapped_witness :
  exists body,
    py "<terminal_history>No terminal output found.</terminal_history>"
    = py "<terminal_history>" ++ body ++ py "</terminal_history>".
Proof.
  apply (terminal_context_wrapped char_tokenizer [] P_shell 4096 3).
  reflexivity.
Defined.

Lemma slice_to_cons {A} (x : A) (l : list A) (n : Z) :
  1 <= n -> Py.slice_to (x :: l) n = x :: Py.slice_to l (n - 1).
Proof.
  intros Hn. unfold Py.slice_to, Py.adjust.
  destruct (Z.ltb_spec n 0), (Z.ltb_spec (n - 1) 0); try lia.
  simpl length.
  replace (Z.to_nat (Z.min n (Z.of_nat (S (length l)))))
    with (S (Z.to_nat (Z.min (n - 1) (Z.of_nat (length l))))) by lia.
  reflexivity.
Qed.

(** X17. When segmentation returns at least one command, its newest
    command's text is within the budget and [max_commands >= 1], the
    context ends with the [<last_command>] block of that newest command
    (with its output rebuilt under the budget). *)
Theorem terminal_context_last_is_newest (T : Tokenizer) (pane p : str)
  (shell : Shell) (max_tokens max_commands : Z) (c : Command)
  (cs : list Command) :
  pane <> [] ->
  prompt shell = Some p ->
  p <> [] ->
  get_commands pane shell = Ok (c :: cs) ->
  1 <= max_commands ->
  count_tokens T (text c) <= max_tokens ->
  exists before,
    terminal_context T pane shell max_tokens max_commands
    = Ok (before ++ py "<last_command>" ++ nl
          ++ command_to_string (rebuilt T max_tokens c) (Some p)
          ++ nl ++ py "</last_command>" ++ nl ++ py "</terminal_history>").
Proof.
  intros Hpane Hp Hne Hcs Hmc Hc. unfold terminal_context.
  destruct pane as [|c0 pane]; [congruence|].
  rewrite Hp. destruct p as [|c1 p]; [congruence|].
  rewrite Hcs. cbn [bind]. rewrite slice_to_cons by exact Hmc.
  unfold truncate_commands. rewrite truncate_commands_loop_spec.
  cbn [take_while app]. unfold within at 1.
  destruct (Z.leb_spec (count_tokens T (text c)) max_tokens); [|lia].
  cbn [map rev]. unfold subscript_last. rewrite rev_app_distr, rev_involutive.
  cbn [rev app bind].
  match goal with
  | |- context [Py.join nl ?m] =>
      exists (py "<terminal_history>" ++ nl ++ py "<previous_commands>" ++ nl
              ++ Py.join nl m ++ nl ++ py "</previous_commands>" ++ nl ++ nl)
  end.
  now rewrite <- !app_assoc.
Qed.

Lemma terminal_context_last_is_newest_witness :
  exists before,
    terminal_context char_tokenizer echo_pane P_shell 4096 3
    = Ok (before ++ py "<last_command>" ++ nl
          ++ command_to_string
               (rebuilt char_tokenizer 4096
                  (mkCommand (py "echo hi") (py "hi")))
               (Some (py "P>"))
          ++ nl ++ py "</last_command>" ++ nl ++ py "</terminal_history>").
Proof.
  apply (terminal_context_last_is_newest char_tokenizer echo_pane (py "P>")
           P_shell 4096 3 (mkCommand (py "echo hi") (py "hi")) []).
  - discriminate.
  - reflexivity.
  - discriminate.
  - vm_compute. reflexivity.
  - lia.
  - vm_compute. discriminate.
Defined.

(** X18. Outside a multiplexer ([TMUX] and [STY] unset or empty), and
    under [screen] when the hardcopy command exits with a non-zero
    code, [get_terminal_context] returns the fixed "No terminal output
    found" context, whatever the shell and the bounds. *)
Theorem get_terminal_context_no_capture (T : Tokenizer) (w : World)
  (shell : Shell) (max_tokens max_commands : Z) :
  getenv_true w (py "TMUX") = false ->
  getenv_true w (py "STY") = false
  \/ (temp_fresh w /\ getenv_true w (py "STY") = true
      /\ exists returncode written,
           screen_hardcopy w = Exited returncode written
           /\ returncode <> 0) ->
  fst (get_terminal_context T w shell max_tokens max_commands)
  = Ok (py "<terminal_history>No terminal output found.</terminal_history>").
Proof.
  intros Htmux H. unfold get_terminal_context.
  destruct H as [Hsty|(Hf & Hsty & rc & out & Hrun & Hrc)].
  - unfold get_pane_output. cbv zeta.
    rewrite !getenv_true_write, Htmux, Hsty. reflexivity.
  - rewrite (get_pane_output_screen_cleans w rc out Hf Htmux Hsty Hrun).
    destruct (Z.eqb_spec rc 0); [congruence|]. reflexivity.
Qed.

Lemma get_terminal_context_no_capture_witness :
  fst (get_terminal_context char_tokenizer (screen_world 1 (py "P> ls"))
         P_shell 4096 3)
  = Ok (py "<terminal_history>No terminal output found.</terminal_history>").
Proof.
  apply (get_terminal_context_no_capture char_tokenizer
           (screen_world 1 (py "P> ls")) P_shell 4096 3).
  - reflexivity.
  - right. split; [split; [discriminate|reflexivity]|].
    split; [reflexivity|]. exists 1, (py "P> ls"). split; [reflexivity|lia].
Defined.

(** ** Budgeted truncator: what comes back *)

Lemma map_text_rebuilt (T : Tokenizer) (max_tokens : Z) (l : list Command) :
  map text (map (rebuilt T max_tokens) l) = map text l.
Proof. rewrite map_map. reflexivity. Qed.

(** X19. [truncate_commands] returns the commands of a prefix of its
    argument, in the same order and with their texts unchanged; each
    returned text is within the budget, and each returned output is the
    newline-join of lines that are each within the budget. *)
Theorem truncate_commands_within_budget (T : Tokenizer) (max_tokens : Z)
  (commands : list Command) :
  (exists dropped,
      map text commands
      = map text (truncate_commands T commands max_tokens) ++ dropped)
  /\ (length (truncate_commands T commands max_tokens) <= length commands)%nat
  /\ Forall (fun c =>
               count_tokens T (text c) <= max_tokens
               /\ exists lines,
                    output c = Py.join nl lines
                    /\ Forall (fun l => count_tokens T l <= max_tokens) lines)
       (truncate_commands T commands max_tokens).
Proof.
  unfold truncate_commands. rewrite truncate_commands_loop_spec. cbn [app].
  destruct (take_while_split (fun c => within T max_tokens (text c)) commands)
    as (rest & E & Hall & _).
  remember (take_while (fun c => within T max_tokens (text c)) commands)
    as kept eqn:Hkept. clear Hkept. subst commands.
  split; [|split].
  - exists (map text rest). rewrite map_text_rebuilt. apply map_app.
  - rewrite length_map, length_app. lia.
  - apply Forall_map. eapply List.Forall_impl; [|exact Hall].
    intros c Hc. cbn [rebuilt text output]. split; [now apply Z.leb_le|].
    exists (kept_lines T max_tokens (output c)). split; [reflexivity|].
    now destruct (kept_lines_suffix T max_tokens (output c)) as (_ & _ & H & _).
Qed.

(** ** Token meter: positive budgets *)

Lemma slice_to_nonneg {A} (l : list A) (n : Z) :
  0 <= n -> Py.slice_to l n = firstn (Z.to_nat n) l.
Proof.
  intros Hn. unfold Py.slice_to, Py.adjust.
  destruct (Z.ltb_spec n 0); [lia|].
  destruct (Z.le_gt_cases n (Z.of_nat (length l))).
  - now rewrite Z.min_l.
  - rewrite Z.min_r, Nat2Z.id by lia.
    now rewrite firstn_all, firstn_all2 by lia.
Qed.

Lemma slice_from_neg {A} (l : list A) (n : Z) :
  0 < n -> Py.slice_from l (- n) = skipn (length l - Z.to_nat n) l.
Proof.
  intros Hn. unfold Py.slice_from, Py.adjust.
  destruct (Z.ltb_spec (- n) 0); [|lia]. f_equal. lia.
Qed.

(** X20. With a positive budget, [truncate_tokens] decodes exactly the
    first [max_tokens] tokens of the text ([reverse] false) or the last
    [max_tokens] ones ([reverse] true), and all of them when the text
    has fewer. *)
Theorem truncate_tokens_positive_budget (T : Tokenizer) (text : str)
  (max_tokens : Z) (reverse : bool) :
  0 < max_tokens ->
  exists kept dropped,
    encode T text = (if reverse then dropped ++ kept else kept ++ dropped)
    /\ Z.of_nat (length kept) = Z.min max_tokens (count_tokens T text)
    /\ truncate_tokens T text max_tokens reverse = decode T kept.
Proof.
  intros Hn. unfold truncate_tokens, count_tokens.
  set (tokens := encode T text). destruct reverse.
  - exists (skipn (length tokens - Z.to_nat max_tokens) tokens),
           (firstn (length tokens - Z.to_nat max_tokens) tokens).
    split; [now rewrite firstn_skipn|].
    split; [rewrite length_skipn; lia|].
    now rewrite slice_from_neg.
  - exists (firstn (Z.to_nat max_tokens) tokens),
           (skipn (Z.to_nat max_tokens) tokens).
    split; [now rewrite firstn_skipn|].
    split; [rewrite length_firstn; lia|].
    now rewrite slice_to_nonneg by lia.
Qed.

Lemma truncate_tokens_positive_budget_witness :
  exists kept dropped,
    encode char_tokenizer (py "hello world") = dropped ++ kept
    /\ Z.of_nat (length kept)
       = Z.min 5 (count_tokens char_tokenizer (py "hello world"))
    /\ truncate_tokens char_tokenizer (py "hello world") 5 true
       = decode char_tokenizer kept.
Proof.
  apply (truncate_tokens_positive_budget char_tokenizer (py "hello world")
           5 true).
  lia.
Defined.

Example truncate_tokens_tail :
  truncate_tokens char_tokenizer (py "hello world") 5 true = py "world"
  /\ truncate_tokens char_tokenizer (py "hello world") 5 false = py "hello".
Proof. split; reflexivity. Qed.

(** ** Flat mode: a pane with nothing above the invoking line *)

(** X21. In flat mode (no prompt), when the pane holds at most one line
    before its trailing blank lines, nothing is left once the invoking
    line is dropped: the context has an empty body. *)
Theorem terminal_context_flat_single_line (T : Tokenizer) (pane : str)
  (shell : Shell) (max_tokens max_commands : Z) (kept blanks : list str) :
  decodes_empty T ->
  encode T [] = [] ->
  pane <> [] ->
  prompt shell = None \/ prompt shell = Some [] ->
  Py.splitlines pane = kept ++ blanks ->
  (length kept <= 1)%nat ->
  (forall x, kept = [x] -> blank x = false) ->
  Forall (fun l => blank l = true) blanks ->
  terminal_context T pane shell max_tokens max_commands
  = Ok (py "<terminal_history>" ++ nl ++ nl ++ py "</terminal_history>").
Proof.
  intros Hd He Hpane Hp E Hlen Hlast Hb.
  assert (truncate_pane_output T pane max_tokens = []) as Hflat.
  { unfold truncate_pane_output.
    rewrite (pane_text_spec pane kept blanks E Hb).
    - destruct kept as [|x [|y kept]]; [| |simpl in Hlen; lia];
        cbn [removelast Py.join]; unfold truncate_tokens; rewrite He;
        (destruct (Py.slice_from [] (- max_tokens)) eqn:Es;
         [now rewrite Hd|]);
        unfold Py.slice_from in Es; now rewrite skipn_nil in Es.
    - intros k x Hk. apply Hlast. subst kept.
      rewrite length_app in Hlen. simpl in Hlen.
      destruct k; [reflexivity|simpl in Hlen; lia]. }
  unfold terminal_context. destruct pane as [|c0 pane]; [congruence|].
  destruct Hp as [-> | ->]; now rewrite Hflat.
Qed.

Lemma terminal_context_flat_single_line_witness :
  terminal_context char_tokenizer (py "wut" ++ nl ++ nl)
    (mkShell None None None) 4096 3
  = Ok (py "<terminal_history>" ++ nl ++ nl ++ py "</terminal_history>").
Proof.
  apply (terminal_context_flat_single_line char_tokenizer
           (py "wut" ++ nl ++ nl) (mkShell None None None) 4096 3
           [py "wut"] [[]]).
  - reflexivity.
  - reflexivity.
  - discriminate.
  - now left.
  - reflexivity.
  - simpl. lia.
  - intros x [= <-]. vm_compute. reflexivity.
  - repeat constructor.
Defined.

(** ** Pane capturer: the capturing paths *)





(** X24. Only [CalledProcessError] is caught: when the multiplexer command
    cannot be started, [FileNotFoundError] leaves [get_pane_output] and
    the temporary file stays behind. *)
Theorem get_pane_output_missing_command (w : World) :
  (getenv_true w (py "TMUX") = true /\ tmux_capture w = Missing)
  \/ (getenv_true w (py "TMUX") = false /\ getenv_true w (py "STY") = true
      /\ screen_hardcopy w = Missing) ->
  fst (get_pane_output w) = Raise FileNotFoundError
  /\ files (snd (get_pane_output w)) !! temp_name w = Some [].
Proof.
  unfold get_pane_output. cbv zeta. rewrite !getenv_true_write.
  intros [[-> Hrun]|(-> & -> & Hrun)].
  - change (tmux_capture (write_file _ _ _)) with (tmux_capture w).
    rewrite Hrun. split; [reflexivity|]. apply lookup_insert_eq.
  - change (screen_hardcopy (write_file _ _ _)) with (screen_hardcopy w).
    rewrite Hrun. split; [reflexivity|]. apply lookup_insert_eq.
Qed.

Lemma get_pane_output_missing_command_witness :
  fst (get_pane_output tmux_missing_world) = Raise FileNotFoundError
  /\ files (snd (get_pane_output tmux_missing_world))
       !! temp_name tmux_missing_world = Some [].
Proof.
  apply (get_pane_output_missing_command tmux_missing_world).
  left. split; reflexivity.
Defined.

(** ** Shell discovery and the context *)

(** X25. When no shell is recognised, [get_shell] has no prompt, and the
    context is then built in flat mode, which never raises. *)
Theorem get_shell_unrecognised (T : Tokenizer) (environ : gmap str str)
  (procs : list (Z * str)) (check_output : list str -> option str) :
  name (get_shell environ procs check_output) = None ->
  prompt (get_shell environ procs check_output) = None
  /\ forall pane max_tokens max_commands,
       exists context,
         terminal_context T pane (get_shell environ procs check_output)
           max_tokens max_commands = Ok context.
Proof.
  unfold get_shell.
  destruct (get_shell_name_and_path environ procs) as [n pa]. cbn [name prompt].
  intros ->.
  assert (get_shell_prompt check_output None pa = None) as E.
  { apply get_shell_prompt_none_name. }
  split; [exact E|]. intros pane mt mc. unfold terminal_context.
  cbn [prompt]. rewrite E. destruct pane; eauto.
Qed.

Lemma get_shell_unrecognised_witness :
  prompt (get_shell ∅ [(4242, py "python3")] zsh_check_output) = None
  /\ forall pane max_tokens max_commands,
       exists context,
         terminal_context char_tokenizer pane
           (get_shell ∅ [(4242, py "python3")] zsh_check_output)
           max_tokens max_commands = Ok context.
Proof.
  apply (get_shell_unrecognised char_tokenizer ∅ [(4242, py "python3")]
           zsh_check_output).
  vm_compute. reflexivity.
Defined.

(** ** Query and provider *)


Section ExplainSpec.

Context (EXPLAIN_PROMPT ANSWER_PROMPT : str).
Context (run_openai run_anthropic : str -> str -> res str).
Context {Rendered : Type} (format_output : str -> Rendered).

(** X27. A whitespace-only query is sent as if there were no query (the
    default question), but under the system message meant for answering
    a query. *)
Theorem explain_blank_query (environ : gmap str str) (context q : str) :
  q <> [] ->
  Py.strip q = [] ->
  explain EXPLAIN_PROMPT ANSWER_PROMPT run_openai run_anthropic format_output
    environ context (Some q)
  = explain ANSWER_PROMPT ANSWER_PROMPT run_openai run_anthropic format_output
      environ context None.
Proof.
  intros Hne Hs. unfold explain, build_query.
  destruct q as [|c q]; [congruence|].
  now rewrite bool_decide_eq_true_2.
Qed.

(** X28. [explain] calls OpenAI whenever [OPENAI_API_KEY] is set and not
    empty, Anthropic only when it is not and [ANTHROPIC_API_KEY] is, and
    raises [ValueError], calling neither, when both are unset or empty. *)
Theorem explain_provider (environ : gmap str str) (context : str)
  (query : option str) :
  let system_message :=
    match query with
    | Some (_ :: _) => ANSWER_PROMPT
    | _ => EXPLAIN_PROMPT
    end in
  let unset (k : str) := environ !! k = None \/ environ !! k = Some [] in
  let run := explain EXPLAIN_PROMPT ANSWER_PROMPT run_openai run_anthropic
               format_output environ context query in
  ((exists c k, environ !! py "OPENAI_API_KEY" = Some (c :: k)) ->
   run = (output <- run_openai system_message (build_query context query) ;;
          Ok (format_output output)))
  /\ (unset (py "OPENAI_API_KEY") ->
      (exists c k, environ !! py "ANTHROPIC_API_KEY" = Some (c :: k)) ->
      run = (output <- run_anthropic system_message
                         (build_query context query) ;;
             Ok (format_output output)))
  /\ (unset (py "OPENAI_API_KEY") -> unset (py "ANTHROPIC_API_KEY") ->
      run = Raise ValueError).
Proof.
  cbv zeta. unfold explain, get_llm_provider. split; [|split].
  - intros (c & k & ->). reflexivity.
  - intros [-> | ->] (c & k & ->); reflexivity.
  - intros [-> | ->] [-> | ->]; reflexivity.
Qed.

End ExplainSpec.

Lemma explain_blank_query_witness :
  explain (py "explain") (py "answer") (fun s u => Ok (s ++ u))
    (fun s u => Ok u) (fun o => o) ∅ (py "ctx") (Some (py "  "))
  = explain (py "answer") (py "answer") (fun s u => Ok (s ++ u))
      (fun s u => Ok u) (fun o => o) ∅ (py "ctx") None.
Proof.
  apply (explain_blank_query (py "explain") (py "answer")
           (fun s u => Ok (s ++ u)) (fun s u => Ok u) (fun o => o) ∅
           (py "ctx") (py "  ")).
  - discriminate.
  - reflexivity.
Defined.
